(** * Stock Market Education Game: the Streamlit script and its scoring rule

    A shallow embedding of [stock_market_game.py].  The script is a
    Streamlit page: every user interaction runs the whole module from the
    top, the only data that survives from one run to the next is
    [st.session_state], and [st.experimental_rerun()] aborts the current
    run and starts the next one.  We model

    - [st.session_state] as a finite map from attribute names to Python
      values (it also receives the value of every widget created with a
      [key=]),
    - one script run as a computation in a small monad with a read-only
      environment (what the browser sends and the random source), a
      mutable world (session state, the page rendered so far, the position
      in the random stream) and three outcomes: normal return, the rerun
      request, or a Python exception,
    - numpy's float64 arrays as lists of binary64 floats. *)

From Stdlib Require Import ZArith Floats.PrimFloat.
From stdpp Require Import gmap strings list pretty.

Set Default Proof Using "Type".
#[local] Set Warnings "-inexact-float,-register-all".

(** ** Python values, exceptions, page elements *)

(** The values this script stores in the session state: integers (the
    balance and the scenario index) and strings (the radio selections). *)
Inductive value :=
  | VInt (z : Z)
  | VStr (s : string).

Inductive exn :=
  | AttributeError (attr : string)
  | TypeError
  | IndexError
  | ValueError.

(** What [matplotlib] is asked to draw on the axes, in call order. *)
Inductive artist :=
  | Plot (xs : list Z) (ys : list float) (label : string)
  | AxHLine (y : float) (color linestyle label : string)
  | AxVSpan (xmin xmax : float) (color : string) (alpha : float) (label : string)
  | SetTitle (s : string)
  | Legend.

(** What Streamlit is asked to put on the page, in call order. *)
Inductive element :=
  | Title (s : string)
  | Subheader (s : string)
  | Markdown (s : string)
  | Header (s : string)
  | Write (s : string)
  | Expander (label : string) (body : list element)
  | Pyplot (fig : list artist)
  | Radio (label : string) (options : list string) (key : string) (sel : string)
  | Button (label : string)
  | Success (s : string)
  | Error (s : string).

(** ** The script monad *)

(** What one run reads but cannot change: the option the user has picked
    for each keyed widget (absent: never touched), the button whose click
    triggered this run (if any) and the stream of normal samples numpy's
    global generator is going to deliver. *)
Record env := {
  picks : gmap string string;
  clicked : option string;
  rng : nat → float
}.

Record world := {
  session_state : gmap string value;
  page : list element;
  rng_pos : nat
}.

Inductive outcome (A : Type) :=
  | Ok (a : A) (w : world)
  | Rerun (w : world)
  | Raised (e : exn) (w : world).
Arguments Ok {A} a w.
Arguments Rerun {A} w.
Arguments Raised {A} e w.

Definition M (A : Type) : Type := env → world → outcome A.

Definition ret {A} (a : A) : M A := λ _ w, Ok a w.

Definition bind {A B} (m : M A) (k : A → M B) : M B :=
  λ e w, match m e w with
         | Ok a w' => k a e w'
         | Rerun w' => Rerun w'
         | Raised x w' => Raised x w'
         end.

Notation "'do' x <- m ; k" := (bind m (λ x, k))
  (at level 10, x name, m at level 100, k at level 200,
   format "'[v' 'do'  x  <-  m ; '/' k ']'").

Definition raise {A} (x : exn) : M A := λ _ w, Raised x w.

Definition ask : M env := λ e w, Ok e w.

(** [for x in l: body x] *)
Fixpoint for_each {A} (l : list A) (body : A → M unit) : M unit :=
  match l with
  | [] => ret tt
  | x :: l' => do _ <- body x; for_each l' body
  end.

(** The world a computation leaves behind, whatever its outcome. *)
Definition final_world {A} (o : outcome A) : world :=
  match o with Ok _ w | Rerun w | Raised _ w => w end.

(** ** Session state *)

Definition set_session (f : gmap string value → gmap string value) (w : world) : world :=
  {| session_state := f (session_state w); page := page w; rng_pos := rng_pos w |}.

(** ['k' in st.session_state] *)
Definition contains (k : string) : M bool :=
  λ _ w, Ok (bool_decide (is_Some (session_state w !! k))) w.

(** [st.session_state.k] *)
Definition get_attr (k : string) : M value :=
  λ _ w, match session_state w !! k with
         | Some v => Ok v w
         | None => Raised (AttributeError k) w
         end.

(** [st.session_state.k = v] *)
Definition set_attr (k : string) (v : value) : M unit :=
  λ _ w, Ok tt (set_session (insert k v) w).

(** Python's [int + int]; a string operand is a [TypeError]. *)
Definition as_int (v : value) : M Z :=
  match v with
  | VInt z => ret z
  | VStr _ => raise TypeError
  end.

(** [st.session_state.k += d] *)
Definition iadd_attr (k : string) (d : Z) : M unit :=
  do v <- get_attr k;
  do z <- as_int v;
  set_attr k (VInt (z + d)).

(** [st.session_state.k -= d] *)
Definition isub_attr (k : string) (d : Z) : M unit :=
  do v <- get_attr k;
  do z <- as_int v;
  set_attr k (VInt (z - d)).

(** [v < n] and [v > n] for an integer [n]; Python refuses to order a
    string and an integer. *)
Definition py_lt (v : value) (n : Z) : M bool :=
  match v with
  | VInt z => ret (z <? n)%Z
  | VStr _ => raise TypeError
  end.

Definition py_gt (v : value) (n : Z) : M bool :=
  match v with
  | VInt z => ret (n <? z)%Z
  | VStr _ => raise TypeError
  end.

(** [f"{v}"] *)
Definition format_value (v : value) : string :=
  match v with
  | VInt z => pretty z
  | VStr s => s
  end.

(** Python's [l[i]] for a list and an integer index: negative indices
    count from the end, anything else out of range raises. *)
Definition py_index {A} (l : list A) (i : Z) : option A :=
  if (0 <=? i)%Z then l !! Z.to_nat i
  else if (- Z.of_nat (length l) <=? i)%Z then l !! Z.to_nat (Z.of_nat (length l) + i)
  else None.

(** [l[v]] for whatever the session state holds as index. *)
Definition list_getitem {A} (l : list A) (v : value) : M A :=
  match v with
  | VInt i => match py_index l i with
              | Some x => ret x
              | None => raise IndexError
              end
  | VStr _ => raise TypeError
  end.

(** ** Streamlit calls *)

Definition emit (el : element) : M unit :=
  λ _ w, Ok tt {| session_state := session_state w;
                  page := page w ++ [el];
                  rng_pos := rng_pos w |}.

Definition st_title (s : string) : M unit := emit (Title s).
Definition st_subheader (s : string) : M unit := emit (Subheader s).
Definition st_markdown (s : string) : M unit := emit (Markdown s).
Definition st_header (s : string) : M unit := emit (Header s).
Definition st_write (s : string) : M unit := emit (Write s).
Definition st_success (s : string) : M unit := emit (Success s).
Definition st_error (s : string) : M unit := emit (Error s).
Definition st_pyplot (fig : list artist) : M unit := emit (Pyplot fig).

(** [with st.expander(label): body] renders [body] inside the expander. *)
Definition st_expander (label : string) (body : M unit) : M unit :=
  λ e w,
    match body e {| session_state := session_state w; page := []; rng_pos := rng_pos w |} with
    | Ok _ w' =>
        Ok tt {| session_state := session_state w';
                 page := page w ++ [Expander label (page w')];
                 rng_pos := rng_pos w' |}
    | Rerun w' => Rerun w'
    | Raised x w' => Raised x w'
    end.

(** [st.radio(label, options, key=key)]: the option the user picked, the
    first option when the widget is new or the stored pick is not among the
    options.  A keyed widget publishes its value in the session state. *)
Definition radio_value (options : list string) (pick : option string) : string :=
  match pick with
  | Some s => if bool_decide (s ∈ options) then s else default "" (head options)
  | None => default "" (head options)
  end.

Definition st_radio (label : string) (options : list string) (key : string) : M string :=
  do e <- ask;
  let sel := radio_value options (picks e !! key) in
  do _ <- set_attr key (VStr sel);
  do _ <- emit (Radio label options key sel);
  ret sel.

(** [st.button(label)] is true only in the run its click triggered. *)
Definition st_button (label : string) : M bool :=
  do e <- ask;
  do _ <- emit (Button label);
  ret (bool_decide (clicked e = Some label)).

(** [st.experimental_rerun()] stops the run. *)
Definition st_experimental_rerun {A} : M A := λ _ w, Rerun w.

(** ** numpy and matplotlib calls *)

(** [np.arange(n)] *)
Definition np_arange (n : nat) : list Z := Z.of_nat <$> seq 0 n.

(** [np.random.normal(loc=100, scale=1, size=n)]: the next [n] samples of
    the generator, which moves on by [n]. *)
Definition np_random_normal (n : nat) : M (list float) :=
  λ e w, Ok (rng e <$> seq (rng_pos w) n)
            {| session_state := session_state w; page := page w; rng_pos := rng_pos w + n |}.

(** [a.cumsum()]: running sums, left to right. *)
Fixpoint cumsum_from (acc : float) (a : list float) : list float :=
  match a with
  | [] => []
  | x :: a' => let s := (acc + x)%float in s :: cumsum_from s a'
  end.

Definition cumsum (a : list float) : list float :=
  match a with
  | [] => []
  | x :: a' => x :: cumsum_from x a'
  end.

(** [a[i]] for a literal index [i >= 0]. *)
Definition getitem (a : list float) (i : nat) : M float :=
  match a !! i with
  | Some x => ret x
  | None => raise IndexError
  end.

(** [a[i] += d] and [a[i] -= d] for a literal index [i >= 0]. *)
Definition iadd_item (a : list float) (i : nat) (d : float) : M (list float) :=
  do x <- getitem a i;
  ret (<[i := (x + d)%float]> a).

Definition isub_item (a : list float) (i : nat) (d : float) : M (list float) :=
  do x <- getitem a i;
  ret (<[i := (x - d)%float]> a).

(** [a[i:] += d] and [a[i:] -= d]: slices never raise. *)
Definition iadd_from (a : list float) (i : nat) (d : float) : list float :=
  take i a ++ ((λ x, x + d)%float <$> drop i a).

Definition isub_from (a : list float) (i : nat) (d : float) : list float :=
  take i a ++ ((λ x, x - d)%float <$> drop i a).

(** [a.min()] and [a.max()]: a NaN wins, an empty array raises. *)
Definition fmin (x y : float) : float :=
  if is_nan x then x else if is_nan y then y else if (y <? x)%float then y else x.

Definition fmax (x y : float) : float :=
  if is_nan x then x else if is_nan y then y else if (x <? y)%float then y else x.

Definition np_min (a : list float) : M float :=
  match a with
  | [] => raise ValueError
  | x :: a' => ret (foldl fmin x a')
  end.

Definition np_max (a : list float) : M float :=
  match a with
  | [] => raise ValueError
  | x :: a' => ret (foldl fmax x a')
  end.

Definition ax_plot (ax : list artist) (x : list Z) (y : list float) (label : string) :=
  ax ++ [Plot x y label].
Definition ax_axhline (ax : list artist) (y : float) (color linestyle label : string) :=
  ax ++ [AxHLine y color linestyle label].
Definition ax_axvspan (ax : list artist) (xmin xmax : float) (color : string)
    (alpha : float) (label : string) :=
  ax ++ [AxVSpan xmin xmax color alpha label].
Definition ax_set_title (ax : list artist) (s : string) := ax ++ [SetTitle s].
Definition ax_legend (ax : list artist) := ax ++ [Legend].

(** ** The script *)

Definition concepts : list (string * string) := [
  ("Liquidity Grab", "A liquidity grab happens when price moves beyond a recent high/low to trap traders, then reverses.");
  ("FVG", "Fair Value Gap (FVG) is an imbalance between buyers and sellers visible as a gap in price.");
  ("BOS", "Break of Structure (BOS) occurs when price breaks a key high or low, indicating a trend change.");
  ("ORB", "Opening Range Breakout (ORB) is a strategy using the high and low of the first few minutes after market open.")
].

(** Lines 18-21: the two attributes are created once per session. *)
Definition init_session : M unit :=
  do has_balance <- contains "balance";
  do _ <- (if negb has_balance then set_attr "balance" (VInt 10000) else ret tt);
  do has_index <- contains "scenario_index";
  if negb has_index then set_attr "scenario_index" (VInt 0) else ret tt.

Module Scenario.
Record t := {
  name : string;
  description : string;
  entry : string;
  good_exit : string;
  bad_exit : string;
  chart : string
}.
End Scenario.

Definition scenarios : list Scenario.t := [
  {| Scenario.name := "Liquidity Grab - Short Setup";
     Scenario.description := "Price swept above previous high and closed back inside range.";
     Scenario.entry := "short";
     Scenario.good_exit := "at previous low";
     Scenario.bad_exit := "holding through reversal";
     Scenario.chart := "liquidity" |};
  {| Scenario.name := "FVG Long Setup";
     Scenario.description := "Price pulled into FVG and bounced.";
     Scenario.entry := "long";
     Scenario.good_exit := "at supply zone";
     Scenario.bad_exit := "holding through FVG close";
     Scenario.chart := "fvg" |};
  {| Scenario.name := "BOS Confirmation";
     Scenario.description := "Structure broke to upside after a higher low.";
     Scenario.entry := "long";
     Scenario.good_exit := "at next swing high";
     Scenario.bad_exit := "entering before BOS";
     Scenario.chart := "bos" |};
  {| Scenario.name := "ORB Failure";
     Scenario.description := "Price broke opening range high but reversed hard.";
     Scenario.entry := "long";
     Scenario.good_exit := "quick scalp on breakout";
     Scenario.bad_exit := "holding during pullback";
     Scenario.chart := "orb" |}
].

(** The four branches of [plot_chart]: each perturbs the price series and
    draws on the axes; an unknown chart type draws nothing. *)
Definition draw_chart (chart_type : string) (ax : list artist) (x : list Z)
    (price : list float) : M (list artist) :=
  if String.eqb chart_type "liquidity" then
    do price <- iadd_item price 6 5;
    do price <- isub_item price 7 6;
    let ax := ax_plot ax x price "Price" in
    do price_5 <- getitem price 5;
    let ax := ax_axhline ax price_5 "red" "--" "Previous High" in
    ret (ax_set_title ax "Liquidity Grab Example")
  else if String.eqb chart_type "fvg" then
    do price <- iadd_item price 4 5;
    do price <- iadd_item price 5 7;
    do price <- iadd_item price 6 3;
    let ax := ax_plot ax x price "Price" in
    let ax := ax_axvspan ax 4.5 5.5 "yellow" 0.3 "FVG" in
    ret (ax_set_title ax "FVG Example")
  else if String.eqb chart_type "bos" then
    let price := iadd_from price 5 6 in
    let ax := ax_plot ax x price "Price" in
    do price_4 <- getitem price 4;
    let ax := ax_axhline ax price_4 "green" "--" "Structure Break" in
    ret (ax_set_title ax "Break of Structure (BOS)")
  else if String.eqb chart_type "orb" then
    do lo <- np_min (take 3 price);
    do hi <- np_max (take 3 price);
    let open_range := (lo, hi) in
    let price := isub_from price 4 4 in
    let ax := ax_plot ax x price "Price" in
    let ax := ax_axhline ax (fst open_range) "purple" "--" "ORB Low" in
    let ax := ax_axhline ax (snd open_range) "orange" "--" "ORB High" in
    ret (ax_set_title ax "Opening Range Breakout (ORB)")
  else ret ax.

Definition plot_chart (chart_type : string) : M unit :=
  let ax := [] in
  let x := np_arange 10 in
  do noise <- np_random_normal 10;
  let price := cumsum noise in
  do ax <- draw_chart chart_type ax x price;
  let ax := ax_legend ax in
  st_pyplot ax.

(** The body of [if st.button("Submit Decision"):], lines 119-134. *)
Definition submit_decision (scenario : Scenario.t) (entry exit_choice : string) : M unit :=
  let result := "" in
  do result <-
    (if String.eqb entry "skip" then
       ret "Skipped the trade."
     else if negb (String.eqb entry (Scenario.entry scenario)) then
       let result := "Wrong entry type. You entered against the setup." in
       do _ <- isub_attr "balance" 300;
       ret result
     else if String.eqb exit_choice "smart" then
       let result := "Smart exit at " +:+ Scenario.good_exit scenario +:+ "!" in
       do _ <- iadd_attr "balance" 500;
       ret result
     else
       let result := "Poor exit at " +:+ Scenario.bad_exit scenario +:+ "!" in
       do _ <- isub_attr "balance" 200;
       ret result);
  do _ <- st_success result;
  do _ <- iadd_attr "scenario_index" 1;
  st_experimental_rerun.

Definition show_game : M unit :=
  do _ <- st_title "Stock Market Game with Visual Learning";
  do balance <- get_attr "balance";
  do _ <- st_subheader ("Balance: $" +:+ format_value balance);
  do _ <- st_markdown "---";
  do _ <- st_subheader "📘 Market Concepts";
  do _ <- for_each concepts (λ '(key, val),
       st_expander key (st_write val));
  do _ <- st_markdown "---";
  do scenario_index <- get_attr "scenario_index";
  do playing <- py_lt scenario_index (Z.of_nat (length scenarios));
  if playing then
    do scenario_index <- get_attr "scenario_index";
    do scenario <- list_getitem scenarios scenario_index;
    do _ <- st_header (Scenario.name scenario);
    do _ <- st_write (Scenario.description scenario);
    do _ <- plot_chart (Scenario.chart scenario);
    do scenario_index <- get_attr "scenario_index";
    do entry <- st_radio "Choose your entry:" ["long"; "short"; "skip"]
                  ("entry_" +:+ format_value scenario_index);
    do scenario_index <- get_attr "scenario_index";
    do exit_choice <- st_radio "Choose your exit strategy:" ["smart"; "greedy"]
                        ("exit_" +:+ format_value scenario_index);
    do pressed <- st_button "Submit Decision";
    if pressed then submit_decision scenario entry exit_choice
    else ret tt
  else
    do _ <- st_header "Game Over";
    do balance <- get_attr "balance";
    do _ <- st_subheader ("Final Balance: $" +:+ format_value balance);
    do balance <- get_attr "balance";
    do profitable <- py_gt balance 10000;
    if profitable then
      st_success "Well done! You made profitable decisions."
    else
      st_error "You need more practice. Review the concepts and try again.".

(** The module, top to bottom: Streamlit runs it as [__main__], so the
    last line calls [show_game]. *)
Definition script : M unit :=
  do _ <- init_session;
  show_game.

(** ** Sessions: one interaction after the other *)

(** Every run starts with an empty page. *)
Definition fresh_page (w : world) : world :=
  {| session_state := session_state w; page := []; rng_pos := rng_pos w |}.

(** The run that follows [st.experimental_rerun()]: same widget picks, no
    button click. *)
Definition without_click (e : env) : env :=
  {| picks := picks e; clicked := None; rng := rng e |}.

(** One user interaction: the script runs, and runs once more when it asks
    for a rerun.  The session state survives whatever the outcome is. *)
Definition interact (e : env) (w : world) : outcome unit :=
  match script e (fresh_page w) with
  | Rerun w' => script (without_click e) (fresh_page w')
  | o => o
  end.

(** A browser session that has just connected. *)
Definition new_session : world :=
  {| session_state := ∅; page := []; rng_pos := 0 |}.

(** The page load (no widget exists yet, nothing can have been clicked). *)
Definition load (e : env) : world :=
  final_world (interact (without_click e) new_session).

(** The session after the interactions [es], in order. *)
Definition run_events (es : list env) (w : world) : world :=
  foldl (λ w e, final_world (interact e w)) w es.

(** The sessions a browser can bring about. *)
Inductive reachable : world → Prop :=
  | reachable_load e : reachable (load e)
  | reachable_event e w : reachable w → reachable (final_world (interact e w)).

(** ** Observations *)

Definition balance_of (w : world) : option Z :=
  match session_state w !! "balance" with
  | Some (VInt z) => Some z
  | _ => None
  end.

Definition index_of (w : world) : option Z :=
  match session_state w !! "scenario_index" with
  | Some (VInt z) => Some z
  | _ => None
  end.

(** The result banners ([st.success], [st.error]) on a page. *)
Definition is_banner (el : element) : bool :=
  match el with
  | Success _ | Error _ => true
  | _ => false
  end.

Definition banners (pg : list element) : list element := List.filter is_banner pg.

(** The series drawn by [ax.plot] on the charts of a page. *)
Definition plotted_series (pg : list element) : list (list float) :=
  pg ≫= λ el, match el with
              | Pyplot fig => fig ≫= λ a, match a with Plot _ ys _ => [ys] | _ => [] end
              | _ => []
              end.

(** The submit button was pressed in this run. *)
Definition submitting (e : env) : bool :=
  bool_decide (clicked e = Some "Submit Decision").

(** ** The pages of the game *)

(** What every run renders first (lines 98-106), for a balance [b]. *)
Definition page_head (b : value) : list element :=
  [Title "Stock Market Game with Visual Learning";
   Subheader ("Balance: $" +:+ format_value b);
   Markdown "---";
   Subheader "📘 Market Concepts"]
  ++ ((λ '(key, val), Expander key [Write val]) <$> concepts)
  ++ [Markdown "---"].

(** ** The scoring rule of the specification *)

(** The rule of the specification's scenario engine (section 4.1), as a
    function from the scenario and the two choices to the message and the
    balance delta. *)
Definition spec_submit (sc : Scenario.t) (entry exit_choice : string) : string * Z :=
  if decide (entry = "skip") then
    ("Skipped the trade.", 0%Z)
  else if decide (entry ≠ Scenario.entry sc) then
    ("Wrong entry type. You entered against the setup.", (-300)%Z)
  else if decide (exit_choice = "smart") then
    ("Smart exit at " +:+ Scenario.good_exit sc +:+ "!", 500%Z)
  else
    ("Poor exit at " +:+ Scenario.bad_exit sc +:+ "!", (-200)%Z).

(** ** One run of [show_game], in closed form *)

(** The options the two radios return in a run, for scenario number [i]. *)
Definition entry_of (e : env) (i : Z) : string :=
  radio_value ["long"; "short"; "skip"] (picks e !! ("entry_" +:+ pretty i)).

Definition exit_of (e : env) (i : Z) : string :=
  radio_value ["smart"; "greedy"] (picks e !! ("exit_" +:+ pretty i)).

(** What the playing branch renders (lines 110-118). *)
Definition scenario_page (sc : Scenario.t) (fig : list artist) (i : Z)
    (entry exit_choice : string) : list element :=
  [Header (Scenario.name sc);
   Write (Scenario.description sc);
   Pyplot fig;
   Radio "Choose your entry:" ["long"; "short"; "skip"] ("entry_" +:+ pretty i) entry;
   Radio "Choose your exit strategy:" ["smart"; "greedy"] ("exit_" +:+ pretty i) exit_choice;
   Button "Submit Decision"].

(** What the game-over branch renders (lines 136-141). *)
Definition game_over_page (b : Z) : list element :=
  [Header "Game Over";
   Subheader ("Final Balance: $" +:+ pretty b);
   if (10000 <? b)%Z then Success "Well done! You made profitable decisions."
   else Error "You need more practice. Review the concepts and try again."].

(** The world after the widgets of scenario [i] have been rendered. *)
Definition rendered (e : env) (w : world) (b i : Z) (sc : Scenario.t)
    (fig : list artist) : world :=
  {| session_state :=
       <["exit_" +:+ pretty i := VStr (exit_of e i)]>
         (<["entry_" +:+ pretty i := VStr (entry_of e i)]> (session_state w));
     page := page w ++ page_head (VInt b)
               ++ scenario_page sc fig i (entry_of e i) (exit_of e i);
     rng_pos := rng_pos w + 10 |}.

(** The world a submitted decision leaves behind. *)
Definition submitted (e : env) (w : world) (b i : Z) (sc : Scenario.t)
    (fig : list artist) : world :=
  let w1 := rendered e w b i sc fig in
  let r := spec_submit sc (entry_of e i) (exit_of e i) in
  {| session_state :=
       <["scenario_index" := VInt (i + 1)]>
         (<["balance" := VInt (b + r.2)]> (session_state w1));
     page := page w1 ++ [Success r.1];
     rng_pos := rng_pos w1 |}.

(** ** The game as a state machine on (scenario index, balance) *)

(** The session holds scenario index [i] and balance [b]. *)
Definition game_state (w : world) (i b : Z) : Prop :=
  session_state w !! "scenario_index" = Some (VInt i) ∧
  session_state w !! "balance" = Some (VInt b).

(** What one interaction does to index and balance: a click on the submit
    button while a scenario is on screen scores it and moves on; anything
    else changes nothing. *)
Definition engine_step (e : env) (s : Z * Z) : Z * Z :=
  let '(i, b) := s in
  if ((i <? 4)%Z && submitting e)%bool then
    match scenarios !! Z.to_nat i with
    | Some sc => ((i + 1)%Z, (b + (spec_submit sc (entry_of e i) (exit_of e i)).2)%Z)
    | None => (i, b)
    end
  else (i, b).

(** The page on screen for index [i] and balance [b]. *)
Definition displays (pg : list element) (i b : Z) : Prop :=
  if (i <? 4)%Z then
    ∃ sc fig entry exit_choice,
      scenarios !! Z.to_nat i = Some sc ∧
      pg = page_head (VInt b) ++ scenario_page sc fig i entry exit_choice
  else pg = page_head (VInt b) ++ game_over_page b.

(** ** What a page shows *)

(** The page offers the submit button. *)
Definition submit_offered (pg : list element) : bool :=
  existsb (λ el, match el with
                 | Button label => String.eqb label "Submit Decision"
                 | _ => false
                 end) pg.

(** The page is the game-over screen. *)
Definition game_over_shown (pg : list element) : bool :=
  existsb (λ el, match el with
                 | Header s => String.eqb s "Game Over"
                 | _ => false
                 end) pg.

(** The banner of the game-over screen for a final balance [b]. *)
Definition verdict (b : Z) : element :=
  if (10000 <? b)%Z then Success "Well done! You made profitable decisions."
  else Error "You need more practice. Review the concepts and try again.".

(** ** Runs of the state machine *)

Definition engine_run (es : list env) (s : Z * Z) : Z * Z :=
  foldl (λ s e, engine_step e s) s es.

(** The number of events of a list that are clicks on the submit button. *)
Definition count_submits (es : list env) : Z :=
  Z.of_nat (length (List.filter submitting es)).

Definition sumZ (l : list Z) : Z := foldr Z.add 0%Z l.

(** The deltas the specification's rule gives for the decisions submitted
    in the events [es], when the session is at scenario number [i]: a click
    on the submit button is a decision on the scenario then on screen and
    moves on to the next one; runs without that click (a radio pick, a
    reload) decide nothing, and neither does a click once no scenario is
    left. *)
Fixpoint decision_deltas (i : nat) (es : list env) : list Z :=
  match es with
  | [] => []
  | e :: es' =>
      if submitting e then
        match scenarios !! i with
        | Some sc =>
            (spec_submit sc (entry_of e (Z.of_nat i)) (exit_of e (Z.of_nat i))).2
              :: decision_deltas (S i) es'
        | None => decision_deltas i es'
        end
      else decision_deltas i es'
  end.

(** ** Concrete sessions used as instances *)

(** A browser that has picked [entry] and [exit_choice] on the radios of
    scenario [i] and clicked the submit button. *)
Definition demo_env (i : Z) (entry exit_choice : string) : env :=
  {| picks := {[ "entry_" +:+ pretty i := entry; "exit_" +:+ pretty i := exit_choice ]};
     clicked := Some "Submit Decision";
     rng := λ n, if Nat.even n then 100.5%float else 99.25%float |}.

Definition demo_world (i b : Z) : world :=
  {| session_state := {[ "scenario_index" := VInt i; "balance" := VInt b ]};
     page := [];
     rng_pos := 0 |}.

(** ** Frame: what a run leaves alone *)

(** The two attributes of the game are the same in both worlds. *)
Definition same_game (w w' : world) : Prop :=
  session_state w' !! "balance" = session_state w !! "balance" ∧
  session_state w' !! "scenario_index" = session_state w !! "scenario_index".

(** Under the browser input [e], the computation [m] leaves the game
    attributes alone whatever its outcome, and returns only values in [Q]. *)
Definition frames {A} (e : env) (m : M A) (Q : A → Prop) : Prop :=
  ∀ w, same_game w (final_world (m e w)) ∧ ∀ a w', m e w = Ok a w' → Q a.

(** ** The two phases of a session *)

(** The branch of [show_game] a session is in (the test on line 108). *)
Inductive phase := Playing | GameOver.

Definition phase_of (w : world) : option phase :=
  match index_of w with
  | Some i => Some (if (i <? Z.of_nat (length scenarios))%Z then Playing else GameOver)
  | None => None
  end.

(** ** More observations *)

(** The figures handed to [st.pyplot] on a page. *)
Definition figures (pg : list element) : list (list artist) :=
  pg ≫= λ el, match el with Pyplot fig => [fig] | _ => [] end.

(** The series [plot_chart] starts from when it is called in world [w]: the
    running sums of the next ten samples. *)
Definition base_series (e : env) (w : world) : list float :=
  cumsum (rng e <$> seq (rng_pos w) 10).

(** The world [plot_chart] leaves behind when it has drawn [fig]. *)
Definition charted (w : world) (fig : list artist) : world :=
  {| session_state := session_state w;
     page := page w ++ [Pyplot fig];
     rng_pos := rng_pos w + 10 |}.

(** * Properties *)

(** ** The chart generator *)

Lemma np_random_normal_10 e w :
  np_random_normal 10 e w =
    Ok (rng e <$> seq (rng_pos w) 10)
       {| session_state := session_state w; page := page w; rng_pos := rng_pos w + 10 |}.
Proof. reflexivity. Qed.

Lemma cumsum_from_length acc a : length (cumsum_from acc a) = length a.
Proof. revert acc; induction a as [|x a IH]; intros acc; simpl; [done | by rewrite IH]. Qed.

Lemma cumsum_length a : length (cumsum a) = length a.
Proof. destruct a; simpl; [done | by rewrite cumsum_from_length]. Qed.

Lemma getitem_lt a i e w :
  i < length a → ∃ x, a !! i = Some x ∧ getitem a i e w = Ok x w.
Proof.
  intros Hi. destruct (lookup_lt_is_Some_2 a i Hi) as [x Hx].
  exists x. split; [done |]. unfold getitem. by rewrite Hx.
Qed.

Lemma iadd_item_lt a i d e w :
  i < length a →
  ∃ x, a !! i = Some x ∧ iadd_item a i d e w = Ok (<[i := (x + d)%float]> a) w.
Proof.
  intros Hi. destruct (getitem_lt a i e w Hi) as (x & Hx & Hg).
  exists x. split; [done |]. unfold iadd_item, bind. by rewrite Hg.
Qed.

Lemma isub_item_lt a i d e w :
  i < length a →
  ∃ x, a !! i = Some x ∧ isub_item a i d e w = Ok (<[i := (x - d)%float]> a) w.
Proof.
  intros Hi. destruct (getitem_lt a i e w Hi) as (x & Hx & Hg).
  exists x. split; [done |]. unfold isub_item, bind. by rewrite Hg.
Qed.

Lemma iadd_from_length a i d : length (iadd_from a i d) = length a.
Proof.
  unfold iadd_from. rewrite length_app, length_fmap, length_take, length_drop. lia.
Qed.

Lemma np_min_nonempty a e w : 0 < length a → ∃ x, np_min a e w = Ok x w.
Proof. destruct a; simpl; [lia | eauto]. Qed.

Lemma np_max_nonempty a e w : 0 < length a → ∃ x, np_max a e w = Ok x w.
Proof. destruct a; simpl; [lia | eauto]. Qed.

(** On a ten-point series no branch of the chart code raises, and none
    touches the world. *)
Lemma draw_chart_ok chart_type ax x price e w :
  length price = 10 → ∃ ax', draw_chart chart_type ax x price e w = Ok ax' w.
Proof.
  intros Hlen. unfold draw_chart.
  destruct (String.eqb chart_type "liquidity").
  { destruct (iadd_item_lt price 6 5 e w) as (p6 & _ & E1); [lia |].
    destruct (isub_item_lt (<[6 := (p6 + 5)%float]> price) 7 6 e w) as (p7 & _ & E2);
      [rewrite length_insert; lia |].
    destruct (getitem_lt (<[7 := (p7 - 6)%float]> (<[6 := (p6 + 5)%float]> price)) 5 e w)
      as (p5 & _ & E3); [rewrite !length_insert; lia |].
    unfold bind. rewrite E1, E2, E3. eauto. }
  destruct (String.eqb chart_type "fvg").
  { destruct (iadd_item_lt price 4 5 e w) as (p4 & _ & E1); [lia |].
    destruct (iadd_item_lt (<[4 := (p4 + 5)%float]> price) 5 7 e w) as (p5 & _ & E2);
      [rewrite length_insert; lia |].
    destruct (iadd_item_lt (<[5 := (p5 + 7)%float]> (<[4 := (p4 + 5)%float]> price)) 6 3 e w)
      as (p6 & _ & E3); [rewrite !length_insert; lia |].
    unfold bind. rewrite E1, E2, E3. eauto. }
  destruct (String.eqb chart_type "bos").
  { destruct (getitem_lt (iadd_from price 5 6) 4 e w) as (p4 & _ & E1);
      [rewrite iadd_from_length; lia |].
    unfold bind. rewrite E1. eauto. }
  destruct (String.eqb chart_type "orb").
  { destruct (np_min_nonempty (take 3 price) e w) as (lo & E1); [rewrite length_take; lia |].
    destruct (np_max_nonempty (take 3 price) e w) as (hi & E2); [rewrite length_take; lia |].
    unfold bind. rewrite E1, E2. eauto. }
  eauto.
Qed.

Lemma plot_chart_ok chart_type e w :
  ∃ fig, plot_chart chart_type e w =
    Ok tt {| session_state := session_state w;
             page := page w ++ [Pyplot fig];
             rng_pos := rng_pos w + 10 |}.
Proof.
  unfold plot_chart, bind. rewrite np_random_normal_10.
  match goal with |- context [draw_chart ?c ?a ?x ?p e ?w'] =>
    destruct (draw_chart_ok c a x p e w') as [ax' ->]
  end.
  { by rewrite cumsum_length, length_fmap, length_seq. }
  eexists. reflexivity.
Qed.

(** C8. The liquidity chart plots the base series (the running sums of the
    ten samples drawn for it) with 5 added to point 6 and 6 subtracted from
    point 7, every other point as drawn; the series has ten points, so both
    indices exist and the chart code raises nothing. *)
Theorem liquidity_chart_perturbation (e : env) (w : world) :
  let base := cumsum (rng e <$> seq (rng_pos w) 10) in
  ∃ w' b6 b7,
    plot_chart "liquidity" e w = Ok tt w' ∧
    length base = 10 ∧
    base !! 6 = Some b6 ∧
    base !! 7 = Some b7 ∧
    plotted_series (page w') =
      plotted_series (page w) ++ [<[7 := (b7 - 6)%float]> (<[6 := (b6 + 5)%float]> base)].
Proof.
  intros base.
  assert (Hlen : length base = 10).
  { unfold base. by rewrite cumsum_length, length_fmap, length_seq. }
  destruct (lookup_lt_is_Some_2 base 6) as [b6 H6]; [lia |].
  destruct (lookup_lt_is_Some_2 base 7) as [b7 H7]; [lia |].
  set (w1 := {| session_state := session_state w; page := page w; rng_pos := rng_pos w + 10 |}).
  set (p1 := <[6 := (b6 + 5)%float]> base).
  set (p2 := <[7 := (b7 - 6)%float]> p1).
  assert (E1 : iadd_item base 6 5 e w1 = Ok p1 w1).
  { unfold iadd_item, bind, getitem. by rewrite H6. }
  assert (E2 : isub_item p1 7 6 e w1 = Ok p2 w1).
  { unfold isub_item, bind, getitem, p1. by rewrite list_lookup_insert_ne, H7 by lia. }
  destruct (getitem_lt p2 5 e w1) as (p5 & _ & E3).
  { unfold p2, p1. rewrite !length_insert. lia. }
  eexists _, b6, b7. split; [| split; [done | split; [done | split; [done |]]]].
  - unfold plot_chart, bind. rewrite np_random_normal_10. fold base w1.
    unfold draw_chart. change (String.eqb "liquidity" "liquidity") with true.
    cbv iota. unfold bind. rewrite E1, E2, E3. reflexivity.
  - cbn [page]. unfold plotted_series. rewrite bind_app. f_equal.
Qed.

(** ** Running the monad step by step *)

Lemma bind_Ok {A B} (m : M A) (k : A → M B) e w a w' :
  m e w = Ok a w' → bind m k e w = k a e w'.
Proof. unfold bind. by intros ->. Qed.

Lemma bind_assoc {A B C} (m : M A) (f : A → M B) (g : B → M C) e w :
  bind (bind m f) g e w = bind m (λ a, bind (f a) g) e w.
Proof. unfold bind. by destruct (m e w). Qed.

Lemma bind_ret {A B} (a : A) (k : A → M B) e w : bind (ret a) k e w = k a e w.
Proof. reflexivity. Qed.

Lemma bind_emit {B} el (k : unit → M B) e w :
  bind (emit el) k e w =
    k tt e {| session_state := session_state w; page := page w ++ [el]; rng_pos := rng_pos w |}.
Proof. reflexivity. Qed.

Lemma bind_get_attr {B} key v (k : value → M B) e w :
  session_state w !! key = Some v → bind (get_attr key) k e w = k v e w.
Proof. intros H. apply bind_Ok. unfold get_attr. by rewrite H. Qed.

Lemma iadd_attr_int key z d e w :
  session_state w !! key = Some (VInt z) →
  iadd_attr key d e w =
    Ok tt {| session_state := <[key := VInt (z + d)]> (session_state w); page := page w;
             rng_pos := rng_pos w |}.
Proof. intros H. unfold iadd_attr. by rewrite (bind_get_attr _ _ _ _ _ H). Qed.

Lemma isub_attr_int key z d e w :
  session_state w !! key = Some (VInt z) →
  isub_attr key d e w =
    Ok tt {| session_state := <[key := VInt (z - d)]> (session_state w); page := page w;
             rng_pos := rng_pos w |}.
Proof. intros H. unfold isub_attr. by rewrite (bind_get_attr _ _ _ _ _ H). Qed.

Lemma st_radio_ok label options key e w :
  let sel := radio_value options (picks e !! key) in
  st_radio label options key e w =
    Ok sel {| session_state := <[key := VStr sel]> (session_state w);
              page := page w ++ [Radio label options key sel];
              rng_pos := rng_pos w |}.
Proof. reflexivity. Qed.

Lemma st_button_ok label e w :
  st_button label e w =
    Ok (bool_decide (clicked e = Some label))
       {| session_state := session_state w; page := page w ++ [Button label];
          rng_pos := rng_pos w |}.
Proof. reflexivity. Qed.

(** Widget keys never collide with the two attributes of the game. *)
Lemma entry_key_balance s : "entry_" +:+ s ≠ "balance".
Proof. done. Qed.
Lemma entry_key_index s : "entry_" +:+ s ≠ "scenario_index".
Proof. done. Qed.
Lemma exit_key_balance s : "exit_" +:+ s ≠ "balance".
Proof. done. Qed.
Lemma exit_key_index s : "exit_" +:+ s ≠ "scenario_index".
Proof. done. Qed.

(** ** The page *)

Lemma concepts_loop_ok (cs : list (string * string)) e w :
  for_each cs (λ '(key, val), st_expander key (st_write val)) e w =
    Ok tt {| session_state := session_state w;
             page := page w ++ ((λ '(key, val), Expander key [Write val]) <$> cs);
             rng_pos := rng_pos w |}.
Proof.
  revert w. induction cs as [|[key val] cs IH]; intros w.
  - simpl. rewrite app_nil_r. by destruct w.
  - cbn [for_each]. erewrite bind_Ok by reflexivity.
    rewrite IH. cbn [session_state page rng_pos fmap list_fmap app]. by rewrite <- app_assoc.
Qed.

Lemma show_game_head e w b (k : M unit) :
  session_state w !! "balance" = Some b →
  (do _ <- st_title "Stock Market Game with Visual Learning";
   do balance <- get_attr "balance";
   do _ <- st_subheader ("Balance: $" +:+ format_value balance);
   do _ <- st_markdown "---";
   do _ <- st_subheader "📘 Market Concepts";
   do _ <- for_each concepts (λ '(key, val), st_expander key (st_write val));
   do _ <- st_markdown "---";
   k) e w =
  k e {| session_state := session_state w; page := page w ++ page_head b;
            rng_pos := rng_pos w |}.
Proof.
  intros Hb. unfold st_title, st_subheader, st_markdown.
  rewrite bind_emit. rewrite (bind_get_attr _ b) by done.
  rewrite !bind_emit. erewrite bind_Ok by apply concepts_loop_ok.
  rewrite bind_emit. cbn [session_state page rng_pos].
  unfold page_head. by rewrite <- !app_assoc.
Qed.

(** ** The scoring rule *)

(** The submit block implements that rule: it shows the message, adds the
    delta to the balance, moves to the next scenario and asks for a rerun. *)
Lemma submit_decision_spec sc entry exit_choice e w b i :
  session_state w !! "balance" = Some (VInt b) →
  session_state w !! "scenario_index" = Some (VInt i) →
  submit_decision sc entry exit_choice e w =
    Rerun {| session_state :=
               <["scenario_index" := VInt (i + 1)]>
                 (<["balance" := VInt (b + (spec_submit sc entry exit_choice).2)]>
                    (session_state w));
             page := page w ++ [Success (spec_submit sc entry exit_choice).1];
             rng_pos := rng_pos w |}.
Proof.
  intros Hb Hi. unfold submit_decision, spec_submit, st_success.
  destruct (String.eqb_spec entry "skip") as [Hskip|Hskip].
  { rewrite decide_True by done. rewrite bind_ret, bind_emit.
    erewrite bind_Ok by (by apply iadd_attr_int with (z := i)).
    cbn [session_state page rng_pos fst snd]. unfold st_experimental_rerun.
    rewrite Z.add_0_r, (insert_id _ _ _ Hb). done. }
  rewrite decide_False by done.
  destruct (String.eqb_spec entry (Scenario.entry sc)) as [Hentry|Hentry]; cbn [negb].
  - rewrite decide_False by (by intros ?).
    destruct (String.eqb_spec exit_choice "smart") as [Hexit|Hexit].
    + rewrite decide_True by done. rewrite bind_assoc.
      erewrite bind_Ok by (by apply iadd_attr_int with (z := b)).
      rewrite bind_ret, bind_emit.
      erewrite bind_Ok
        by (apply iadd_attr_int with (z := i); cbn [session_state];
            by rewrite lookup_insert_ne).
      reflexivity.
    + rewrite decide_False by done. rewrite bind_assoc.
      erewrite bind_Ok by (by apply isub_attr_int with (z := b)).
      rewrite bind_ret, bind_emit.
      erewrite bind_Ok
        by (apply iadd_attr_int with (z := i); cbn [session_state];
            by rewrite lookup_insert_ne).
      reflexivity.
  - rewrite decide_True by done. rewrite bind_assoc.
    erewrite bind_Ok by (by apply isub_attr_int with (z := b)).
    rewrite bind_ret, bind_emit.
    erewrite bind_Ok
      by (apply iadd_attr_int with (z := i); cbn [session_state];
          by rewrite lookup_insert_ne).
    reflexivity.
Qed.

(** ** One run of [show_game] *)

Lemma py_index_nonneg {A} (l : list A) (i : Z) :
  (0 ≤ i)%Z → py_index l i = l !! Z.to_nat i.
Proof. intros Hi. unfold py_index. by rewrite (proj2 (Z.leb_le 0 i) Hi). Qed.

Lemma show_game_playing e w b i sc :
  session_state w !! "balance" = Some (VInt b) →
  session_state w !! "scenario_index" = Some (VInt i) →
  (0 ≤ i < 4)%Z →
  scenarios !! Z.to_nat i = Some sc →
  ∃ fig,
    show_game e w =
      if submitting e then Rerun (submitted e w b i sc fig)
      else Ok tt (rendered e w b i sc fig).
Proof.
  intros Hb Hi Hrange Hsc.
  destruct (plot_chart_ok (Scenario.chart sc) e
              {| session_state := session_state w;
                 page := (page w ++ page_head (VInt b))
                           ++ [Header (Scenario.name sc)]
                           ++ [Write (Scenario.description sc)];
                 rng_pos := rng_pos w |}) as [fig Hfig].
  exists fig. unfold show_game.
  rewrite (show_game_head e w (VInt b)) by done.
  rewrite (bind_get_attr _ (VInt i)) by done.
  cbn [py_lt]. rewrite bind_ret.
  replace (i <? Z.of_nat (length scenarios))%Z with true
    by (symmetry; apply Z.ltb_lt; simpl; lia).
  rewrite (bind_get_attr _ (VInt i)) by done.
  cbn [list_getitem]. rewrite py_index_nonneg, Hsc by lia. rewrite bind_ret.
  unfold st_header, st_write. rewrite !bind_emit.
  cbn [session_state page rng_pos]. rewrite <- (app_assoc _ [Header _] [Write _]).
  erewrite bind_Ok by exact Hfig.
  rewrite (bind_get_attr _ (VInt i)) by done.
  erewrite bind_Ok by apply st_radio_ok.
  rewrite (bind_get_attr _ (VInt i))
    by (cbn [session_state]; rewrite lookup_insert_ne by apply entry_key_index; done).
  erewrite bind_Ok by apply st_radio_ok.
  erewrite bind_Ok by apply st_button_ok.
  cbn [session_state page rng_pos format_value].
  fold (entry_of e i) (exit_of e i). fold (submitting e).
  assert (Hpage :
    (((((page w ++ page_head (VInt b)) ++ [Header (Scenario.name sc)]
          ++ [Write (Scenario.description sc)]) ++ [Pyplot fig])
        ++ [Radio "Choose your entry:" ["long"; "short"; "skip"] ("entry_" +:+ pretty i)
              (entry_of e i)])
       ++ [Radio "Choose your exit strategy:" ["smart"; "greedy"] ("exit_" +:+ pretty i)
             (exit_of e i)])
      ++ [Button "Submit Decision"]
    = page w ++ page_head (VInt b)
        ++ scenario_page sc fig i (entry_of e i) (exit_of e i)).
  { unfold scenario_page. by rewrite <- !app_assoc. }
  rewrite Hpage.
  destruct (submitting e).
  - erewrite submit_decision_spec; [reflexivity | |]; cbn [session_state].
    + rewrite !lookup_insert_ne by (apply exit_key_balance || apply entry_key_balance). done.
    + rewrite !lookup_insert_ne by (apply exit_key_index || apply entry_key_index). done.
  - reflexivity.
Qed.

Lemma show_game_over e w b i :
  session_state w !! "balance" = Some (VInt b) →
  session_state w !! "scenario_index" = Some (VInt i) →
  (4 ≤ i)%Z →
  show_game e w =
    Ok tt {| session_state := session_state w;
             page := page w ++ page_head (VInt b) ++ game_over_page b;
             rng_pos := rng_pos w |}.
Proof.
  intros Hb Hi Hrange. unfold show_game.
  rewrite (show_game_head e w (VInt b)) by done.
  rewrite (bind_get_attr _ (VInt i)) by done.
  cbn [py_lt]. rewrite bind_ret.
  replace (i <? Z.of_nat (length scenarios))%Z with false
    by (symmetry; apply Z.ltb_ge; simpl; lia).
  unfold st_header, st_subheader. rewrite bind_emit.
  rewrite (bind_get_attr _ (VInt b)) by done.
  rewrite bind_emit.
  rewrite (bind_get_attr _ (VInt b)) by done.
  cbn [py_gt]. rewrite bind_ret.
  cbn [session_state page rng_pos format_value].
  unfold game_over_page, st_success, st_error, emit.
  destruct (10000 <? b)%Z; cbn [session_state page rng_pos]; by rewrite <- !app_assoc.
Qed.

(** ** The game as a state machine on (scenario index, balance) *)

Lemma game_state_index w i b : game_state w i b → index_of w = Some i.
Proof. intros [Hi _]. unfold index_of. by rewrite Hi. Qed.

Lemma game_state_balance w i b : game_state w i b → balance_of w = Some b.
Proof. intros [_ Hb]. unfold balance_of. by rewrite Hb. Qed.

Lemma game_state_fresh_page w i b : game_state w i b → game_state (fresh_page w) i b.
Proof. done. Qed.

Lemma game_state_rendered e w b i sc fig i' b' :
  game_state w i' b' → game_state (rendered e w b i sc fig) i' b'.
Proof.
  intros [Hi Hb]. split; cbn [rendered session_state].
  - rewrite !lookup_insert_ne by (apply exit_key_index || apply entry_key_index). done.
  - rewrite !lookup_insert_ne by (apply exit_key_balance || apply entry_key_balance). done.
Qed.

Lemma game_state_submitted e w b i sc fig :
  game_state (submitted e w b i sc fig) (i + 1)
    (b + (spec_submit sc (entry_of e i) (exit_of e i)).2).
Proof.
  split; cbn [submitted session_state].
  - by rewrite lookup_insert_eq.
  - rewrite lookup_insert_ne by done. by rewrite lookup_insert_eq.
Qed.

Lemma scenario_at (i : Z) : (0 ≤ i < 4)%Z → ∃ sc, scenarios !! Z.to_nat i = Some sc.
Proof.
  intros Hi. apply lookup_lt_is_Some_2. simpl. lia.
Qed.

(** The two attributes exist: lines 18-21 do nothing. *)
Lemma init_session_present e w i b : game_state w i b → init_session e w = Ok tt w.
Proof.
  intros [Hi Hb]. unfold init_session, contains, bind.
  rewrite Hb. rewrite bool_decide_eq_true_2 by eauto. cbn [negb ret].
  rewrite Hi. rewrite bool_decide_eq_true_2 by eauto. done.
Qed.

(** A new session: lines 18-21 create both. *)
Lemma init_session_new e w :
  session_state w = ∅ →
  ∃ w', init_session e w = Ok tt w' ∧ game_state w' 0 10000 ∧
        page w' = page w ∧ rng_pos w' = rng_pos w.
Proof.
  intros Hnew. unfold init_session, contains, bind.
  rewrite Hnew, lookup_empty. rewrite bool_decide_eq_false_2 by (by intros [? ?]).
  cbn [negb set_attr set_session session_state].
  rewrite Hnew, lookup_insert_ne by done. rewrite lookup_empty.
  rewrite bool_decide_eq_false_2 by (by intros [? ?]).
  cbn [negb]. eexists. split; [reflexivity |].
  split; [| done]. split; cbn [set_session session_state].
  - by rewrite lookup_insert_eq.
  - rewrite lookup_insert_ne by done. by rewrite lookup_insert_eq.
Qed.

(** One run of the whole script from an empty page. *)
Lemma script_spec e w i b :
  game_state w i b → (0 ≤ i ≤ 4)%Z → page w = [] →
  ∃ w', script e w =
          (if ((i <? 4)%Z && submitting e)%bool then Rerun w' else Ok tt w') ∧
        game_state w' (engine_step e (i, b)).1 (engine_step e (i, b)).2 ∧
        (((i <? 4)%Z && submitting e)%bool = false → displays (page w') i b).
Proof.
  intros Hgs Hrange Hpage. unfold script.
  erewrite bind_Ok by (by eapply init_session_present).
  destruct Hgs as [Hi Hb]. unfold engine_step, displays.
  destruct (Z.ltb_spec i 4) as [Hlt|Hge].
  - destruct (scenario_at i) as [sc Hsc]; [lia |].
    destruct (show_game_playing e w b i sc Hb Hi) as [fig ->]; [lia | done |].
    rewrite Hsc. cbn [andb]. destruct (submitting e).
    + eexists. split; [reflexivity |]. split; [apply game_state_submitted | done].
    + eexists. split; [reflexivity |].
      split; [by apply game_state_rendered |].
      intros _. exists sc, fig, (entry_of e i), (exit_of e i).
      split; [done |]. cbn [rendered page]. by rewrite Hpage.
  - rewrite (show_game_over e w b i) by (done || lia).
    cbn [andb]. eexists. split; [reflexivity |].
    split; [done |]. intros _. cbn [page]. by rewrite Hpage.
Qed.

Lemma engine_step_without_click s e : engine_step (without_click e) s = s.
Proof.
  destruct s as [i b]. unfold engine_step, submitting. cbn [without_click clicked].
  rewrite bool_decide_eq_false_2 by done. by rewrite andb_false_r.
Qed.

Lemma engine_step_index e i b :
  (0 ≤ i ≤ 4)%Z →
  (engine_step e (i, b)).1 = (if ((i <? 4)%Z && submitting e)%bool then i + 1 else i)%Z.
Proof.
  intros Hi. unfold engine_step.
  destruct (Z.ltb_spec i 4) as [Hlt|Hge]; [| done].
  destruct (scenario_at i) as [sc ->]; [lia |].
  by destruct (submitting e).
Qed.

(** One interaction simulates one step of the state machine, raises
    nothing, and leaves the page of the new state on screen. *)
Lemma interact_spec e w i b :
  game_state w i b → (0 ≤ i ≤ 4)%Z →
  ∃ w', interact e w = Ok tt w' ∧
        game_state w' (engine_step e (i, b)).1 (engine_step e (i, b)).2 ∧
        displays (page w') (engine_step e (i, b)).1 (engine_step e (i, b)).2.
Proof.
  intros Hgs Hrange. unfold interact.
  destruct (script_spec e (fresh_page w) i b) as (w1 & -> & Hgs1 & Hpg1);
    [by apply game_state_fresh_page | done | done |].
  pose proof (engine_step_index e i b Hrange) as Hidx.
  destruct ((i <? 4)%Z && submitting e)%bool eqn:Hsub.
  - apply andb_true_iff in Hsub as [Hlt%Z.ltb_lt _].
    destruct (engine_step e (i, b)) as [i' b']. cbn [fst snd] in *. subst i'.
    destruct (script_spec (without_click e) (fresh_page w1) (i + 1) b')
      as (w2 & E2 & Hgs2 & Hpg2); [by apply game_state_fresh_page | lia | done |].
    rewrite engine_step_without_click in Hgs2. cbn [fst snd] in Hgs2.
    assert (Hno : ((i + 1 <? 4)%Z && submitting (without_click e))%bool = false).
    { unfold submitting. cbn [without_click clicked].
      rewrite bool_decide_eq_false_2 by done. apply andb_false_r. }
    rewrite Hno in E2. exists w2. split; [done |]. split; [done |]. by apply Hpg2.
  - exists w1. split; [done |]. split; [done |].
    unfold engine_step in *. rewrite Hsub in *. by apply Hpg1.
Qed.

(** ** What is on the page *)

Lemma banners_app pg1 pg2 : banners (pg1 ++ pg2) = banners pg1 ++ banners pg2.
Proof. apply List.filter_app. Qed.

Lemma banners_page_head b : banners (page_head b) = [].
Proof. reflexivity. Qed.

Lemma banners_scenario_page sc fig i entry exit_choice :
  banners (scenario_page sc fig i entry exit_choice) = [].
Proof. reflexivity. Qed.

Lemma banners_game_over_page b : banners (game_over_page b) = [verdict b].
Proof. unfold game_over_page, verdict. by destruct (10000 <? b)%Z. Qed.

Lemma scenario_name_not_game_over n sc :
  scenarios !! n = Some sc → String.eqb (Scenario.name sc) "Game Over" = false.
Proof.
  intros H. do 4 (destruct n as [|n]; [by inversion H |]). inversion H.
Qed.

Lemma scenario_entry_cases n sc :
  scenarios !! n = Some sc → Scenario.entry sc = "long" ∨ Scenario.entry sc = "short".
Proof.
  intros H. do 4 (destruct n as [|n]; [inversion H; auto |]). inversion H.
Qed.

Lemma displays_observed pg i b :
  displays pg i b →
  submit_offered pg = (i <? 4)%Z ∧
  game_over_shown pg = negb (i <? 4)%Z ∧
  banners pg = if (i <? 4)%Z then [] else [verdict b].
Proof.
  unfold displays. destruct (i <? 4)%Z.
  - intros (sc & fig & entry & exit_choice & Hsc & ->).
    unfold submit_offered, game_over_shown. rewrite !existsb_app, banners_app.
    split; [| split].
    + done.
    + cbn. by rewrite (scenario_name_not_game_over _ _ Hsc).
    + done.
  - intros ->. unfold submit_offered, game_over_shown.
    rewrite !existsb_app, banners_app, banners_game_over_page.
    unfold game_over_page. split; [| split]; [| done | done].
    cbn. by destruct (10000 <? b)%Z.
Qed.

(** ** Runs of the state machine *)

Lemma spec_submit_delta_cases sc entry exit_choice :
  let d := (spec_submit sc entry exit_choice).2 in
  d = 0%Z ∨ d = (-300)%Z ∨ d = 500%Z ∨ d = (-200)%Z.
Proof. unfold spec_submit. repeat case_decide; cbn; auto. Qed.

Lemma engine_step_spec e i b :
  (0 ≤ i ≤ 4)%Z →
  ∃ d, engine_step e (i, b) =
         ((if ((i <? 4)%Z && submitting e)%bool then i + 1 else i)%Z, (b + d)%Z) ∧
       (-300 ≤ d ≤ 500)%Z ∧
       (((i <? 4)%Z && submitting e)%bool = false → d = 0%Z).
Proof.
  intros Hi. unfold engine_step.
  destruct ((i <? 4)%Z && submitting e)%bool eqn:Hsub.
  - apply andb_true_iff in Hsub as [Hlt%Z.ltb_lt _].
    destruct (scenario_at i) as [sc ->]; [lia |].
    eexists. split; [done |]. split; [| done].
    pose proof (spec_submit_delta_cases sc (entry_of e i) (exit_of e i)). cbn zeta in *. lia.
  - exists 0%Z. split; [by rewrite Z.add_0_r |]. split; [lia | done].
Qed.

Lemma engine_run_cons e es s : engine_run (e :: es) s = engine_run es (engine_step e s).
Proof. reflexivity. Qed.

Lemma count_submits_cons e es :
  count_submits (e :: es) = ((if submitting e then 1 else 0) + count_submits es)%Z.
Proof. unfold count_submits. cbn [List.filter]. destruct (submitting e); cbn [length]; lia. Qed.

Lemma count_submits_nonneg es : (0 ≤ count_submits es)%Z.
Proof. unfold count_submits. lia. Qed.

(** The index counts the submits, up to four; each submit moves the
    balance by at least -300 and at most 500. *)
Lemma engine_run_spec es i b :
  (0 ≤ i ≤ 4)%Z →
  let s := engine_run es (i, b) in
  s.1 = Z.min 4 (i + count_submits es) ∧
  (b - 300 * (s.1 - i) ≤ s.2 ≤ b + 500 * (s.1 - i))%Z.
Proof.
  revert i b. induction es as [|e es IH]; intros i b Hi.
  - cbn. unfold count_submits. cbn. lia.
  - cbn zeta. rewrite engine_run_cons, count_submits_cons.
    destruct (engine_step_spec e i b Hi) as (d & -> & Hd & Hd0).
    pose proof (count_submits_nonneg es).
    destruct ((i <? 4)%Z && submitting e)%bool eqn:Hsub.
    + apply andb_true_iff in Hsub as [Hlt%Z.ltb_lt ->].
      destruct (IH (i + 1)%Z (b + d)%Z) as [-> Hb]; [lia |]. lia.
    + rewrite (Hd0 eq_refl), Z.add_0_r.
      destruct (IH i b) as [E Hb]; [lia |]. rewrite E in *.
      apply andb_false_iff in Hsub as [Hge%Z.ltb_ge | ->]; [destruct (submitting e) |]; lia.
Qed.

(** Whatever the events are, the balance moves by the specification's
    deltas of the decisions submitted among them. *)
Lemma engine_run_decisions es (i : nat) b :
  i ≤ 4 →
  (engine_run es (Z.of_nat i, b)).2 = (b + sumZ (decision_deltas i es))%Z.
Proof.
  revert i b. induction es as [|e es IH]; intros i b Hi.
  - cbn. lia.
  - rewrite engine_run_cons. cbn [decision_deltas]. unfold engine_step.
    destruct (submitting e); [| by rewrite andb_false_r, IH].
    rewrite andb_true_r, Nat2Z.id. destruct (decide (i = 4)) as [->|Hne].
    + change (Z.of_nat 4 <? 4)%Z with false. cbv iota.
      change (scenarios !! 4) with (@None Scenario.t). by rewrite IH.
    + destruct (lookup_lt_is_Some_2 scenarios i) as [sc Hsc]; [simpl; lia |].
      rewrite Hsc.
      replace (Z.of_nat i <? 4)%Z with true by (symmetry; apply Z.ltb_lt; lia).
      replace (Z.of_nat i + 1)%Z with (Z.of_nat (S i)) by lia.
      rewrite IH by lia. cbn [sumZ foldr]. unfold sumZ. lia.
Qed.

(** There is one delta per submit, for at most the scenarios that are left. *)
Lemma decision_deltas_length es (i : nat) :
  i ≤ 4 →
  Z.of_nat (length (decision_deltas i es)) = Z.min (4 - Z.of_nat i) (count_submits es).
Proof.
  revert i. induction es as [|e es IH]; intros i Hi.
  - cbn. unfold count_submits. cbn. lia.
  - rewrite count_submits_cons. cbn [decision_deltas].
    pose proof (count_submits_nonneg es).
    destruct (submitting e); [| rewrite IH by done; lia].
    destruct (decide (i = 4)) as [->|Hne].
    + change (scenarios !! 4) with (@None Scenario.t). cbv iota.
      rewrite IH by done. lia.
    + destruct (lookup_lt_is_Some_2 scenarios i) as [sc ->]; [simpl; lia |].
      cbn [length]. rewrite Nat2Z.inj_succ, IH by lia. lia.
Qed.

(** ** Sessions simulate the state machine *)

Lemma load_spec e : game_state (load e) 0 10000 ∧ displays (page (load e)) 0 10000.
Proof.
  unfold load, interact, script.
  destruct (init_session_new (without_click e) (fresh_page new_session))
    as (w0 & E0 & Hgs & Hpg & _); [done |].
  erewrite bind_Ok by exact E0. cbv beta.
  destruct Hgs as [Hi Hb].
  destruct (show_game_playing (without_click e) w0 10000 0
              {| Scenario.name := "Liquidity Grab - Short Setup";
                 Scenario.description :=
                   "Price swept above previous high and closed back inside range.";
                 Scenario.entry := "short";
                 Scenario.good_exit := "at previous low";
                 Scenario.bad_exit := "holding through reversal";
                 Scenario.chart := "liquidity" |} Hb Hi) as [fig ->]; [lia | done |].
  change (submitting (without_click e)) with false.
  cbn [final_world]. split.
  - by apply game_state_rendered.
  - unfold displays. change (0 <? 4)%Z with true.
    eexists _, fig, _, _. split; [reflexivity |].
    cbn [rendered page]. by rewrite Hpg.
Qed.

Lemma engine_step_range e i b :
  (0 ≤ i ≤ 4)%Z → (0 ≤ (engine_step e (i, b)).1 ≤ 4)%Z.
Proof.
  intros Hi. rewrite engine_step_index by done.
  destruct (Z.ltb_spec i 4); destruct (submitting e); cbn [andb]; lia.
Qed.

Lemma run_events_spec es w i b :
  game_state w i b → (0 ≤ i ≤ 4)%Z → displays (page w) i b →
  let s := engine_run es (i, b) in
  game_state (run_events es w) s.1 s.2 ∧ displays (page (run_events es w)) s.1 s.2.
Proof.
  revert w i b. induction es as [|e es IH]; intros w i b Hgs Hi Hpg; [done |].
  cbn zeta. rewrite engine_run_cons. unfold run_events. cbn [foldl].
  destruct (interact_spec e w i b Hgs Hi) as (w' & -> & Hgs' & Hpg').
  cbn [final_world]. pose proof (engine_step_range e i b Hi) as Hi'.
  destruct (engine_step e (i, b)) as [i' b']. by apply IH.
Qed.

(** Every reachable session holds an index between 0 and 4 and a balance
    within the bounds that index allows, and shows the page of that state. *)
Lemma reachable_inv w :
  reachable w →
  ∃ i b, game_state w i b ∧ (0 ≤ i ≤ 4)%Z ∧
         (10000 - 300 * i ≤ b ≤ 10000 + 500 * i)%Z ∧
         displays (page w) i b.
Proof.
  induction 1 as [e | e w _ (i & b & Hgs & Hi & Hb & Hpg)].
  - exists 0%Z, 10000%Z. destruct (load_spec e). repeat split; (done || lia).
  - destruct (interact_spec e w i b Hgs Hi) as (w' & -> & Hgs' & Hpg').
    destruct (engine_step_spec e i b Hi) as (d & E & Hd & Hd0).
    rewrite E in *. cbn [fst snd final_world] in *.
    eexists _, _. split; [exact Hgs' |].
    destruct ((i <? 4)%Z && submitting e)%bool eqn:Hsub.
    + apply andb_true_iff in Hsub as [Hlt%Z.ltb_lt _]. repeat split; (done || lia).
    + rewrite (Hd0 eq_refl) in *. repeat split; (done || lia).
Qed.

(** ** A submitted decision *)

(** A click on the submit button while scenario [i] is on screen: the run
    shows the message of the scoring rule, adds its delta to the balance,
    moves to scenario [i + 1] and asks for a rerun. *)
Lemma show_game_submit e w i b sc :
  game_state w i b → (0 ≤ i < 4)%Z → scenarios !! Z.to_nat i = Some sc →
  clicked e = Some "Submit Decision" →
  let r := spec_submit sc (entry_of e i) (exit_of e i) in
  ∃ w', show_game e w = Rerun w' ∧
        banners (page w') = banners (page w) ++ [Success r.1] ∧
        balance_of w' = Some (b + r.2)%Z ∧
        index_of w' = Some (i + 1)%Z.
Proof.
  intros [Hi Hb] Hrange Hsc Hclick r.
  destruct (show_game_playing e w b i sc Hb Hi Hrange Hsc) as [fig ->].
  unfold submitting. rewrite bool_decide_eq_true_2 by done.
  eexists. split; [reflexivity |].
  pose proof (game_state_submitted e w b i sc fig) as Hgs.
  split; [| split].
  - cbn [submitted rendered page]. rewrite <- !app_assoc, !banners_app.
    by rewrite banners_page_head, banners_scenario_page.
  - by apply game_state_balance in Hgs.
  - by apply game_state_index in Hgs.
Qed.

(** C1. Whatever scenario is on screen and whatever the exit radio says, a
    submitted entry of long or short that is not the scenario's entry shows
    the wrong-entry message and takes exactly 300 off the balance. *)
Theorem wrong_entry_costs_300 (e : env) (w : world) (i b : Z) (sc : Scenario.t) :
  game_state w i b → (0 ≤ i < 4)%Z → scenarios !! Z.to_nat i = Some sc →
  clicked e = Some "Submit Decision" →
  entry_of e i = "long" ∨ entry_of e i = "short" →
  entry_of e i ≠ Scenario.entry sc →
  ∃ w', show_game e w = Rerun w' ∧
        banners (page w') =
          banners (page w) ++ [Success "Wrong entry type. You entered against the setup."] ∧
        balance_of w' = Some (b - 300)%Z.
Proof.
  intros Hgs Hrange Hsc Hclick Hentry Hwrong.
  destruct (show_game_submit e w i b sc Hgs Hrange Hsc Hclick) as (w' & E & Hmsg & Hbal & _).
  exists w'. split; [done |]. revert Hmsg Hbal. unfold spec_submit.
  rewrite decide_False by (destruct Hentry as [-> | ->]; done).
  rewrite decide_True by done. cbn [fst snd]. intros Hmsg Hbal.
  split; [done |]. rewrite Hbal. reflexivity.
Qed.

Lemma wrong_entry_costs_300_witness :
  ∃ w', show_game (demo_env 0 "long" "greedy") (demo_world 0 10000) = Rerun w' ∧
        banners (page w') =
          banners (page (demo_world 0 10000))
            ++ [Success "Wrong entry type. You entered against the setup."] ∧
        balance_of w' = Some (10000 - 300)%Z.
Proof.
  apply (wrong_entry_costs_300 (demo_env 0 "long" "greedy") (demo_world 0 10000) 0 10000
           {| Scenario.name := "Liquidity Grab - Short Setup";
              Scenario.description :=
                "Price swept above previous high and closed back inside range.";
              Scenario.entry := "short";
              Scenario.good_exit := "at previous low";
              Scenario.bad_exit := "holding through reversal";
              Scenario.chart := "liquidity" |}).
  - split; vm_compute; reflexivity.
  - lia.
  - reflexivity.
  - reflexivity.
  - left. vm_compute. reflexivity.
  - vm_compute. discriminate.
Defined.

(** C2. Whatever scenario is on screen, submitting its entry with the smart
    exit shows "Smart exit at <good_exit>!" and adds exactly 500 to the
    balance; submitting it with the greedy exit shows "Poor exit at
    <bad_exit>!" and takes exactly 200 off. *)
Theorem correct_entry_scores_exit (e : env) (w : world) (i b : Z) (sc : Scenario.t) :
  game_state w i b → (0 ≤ i < 4)%Z → scenarios !! Z.to_nat i = Some sc →
  clicked e = Some "Submit Decision" →
  entry_of e i = Scenario.entry sc →
  ∃ w', show_game e w = Rerun w' ∧
        (exit_of e i = "smart" →
           banners (page w') =
             banners (page w) ++ [Success ("Smart exit at " +:+ Scenario.good_exit sc +:+ "!")] ∧
           balance_of w' = Some (b + 500)%Z) ∧
        (exit_of e i = "greedy" →
           banners (page w') =
             banners (page w) ++ [Success ("Poor exit at " +:+ Scenario.bad_exit sc +:+ "!")] ∧
           balance_of w' = Some (b - 200)%Z).
Proof.
  intros Hgs Hrange Hsc Hclick Hentry.
  destruct (show_game_submit e w i b sc Hgs Hrange Hsc Hclick) as (w' & E & Hmsg & Hbal & _).
  exists w'. split; [done |]. revert Hmsg Hbal. unfold spec_submit.
  rewrite decide_False
    by (rewrite Hentry; destruct (scenario_entry_cases _ _ Hsc) as [-> | ->]; done).
  rewrite decide_False by (by intros ?).
  split; intros Hexit.
  - rewrite decide_True in Hmsg, Hbal by done. done.
  - rewrite decide_False in Hmsg, Hbal by (by rewrite Hexit).
    cbn [fst snd] in *. split; [done |]. rewrite Hbal. reflexivity.
Qed.

Lemma correct_entry_scores_exit_witness :
  (∃ w', show_game (demo_env 1 "long" "smart") (demo_world 1 9700) = Rerun w' ∧
         banners (page w') = [Success "Smart exit at at supply zone!"] ∧
         balance_of w' = Some 10200%Z) ∧
  (∃ w', show_game (demo_env 1 "long" "greedy") (demo_world 1 9700) = Rerun w' ∧
         banners (page w') = [Success "Poor exit at holding through FVG close!"] ∧
         balance_of w' = Some 9500%Z).
Proof.
  split.
  - destruct (correct_entry_scores_exit (demo_env 1 "long" "smart") (demo_world 1 9700)
                1 9700
                {| Scenario.name := "FVG Long Setup";
                   Scenario.description := "Price pulled into FVG and bounced.";
                   Scenario.entry := "long";
                   Scenario.good_exit := "at supply zone";
                   Scenario.bad_exit := "holding through FVG close";
                   Scenario.chart := "fvg" |}) as (w' & E & Hsmart & _).
    + split; vm_compute; reflexivity.
    + lia.
    + reflexivity.
    + reflexivity.
    + vm_compute. reflexivity.
    + exists w'. split; [exact E |]. apply Hsmart. vm_compute. reflexivity.
  - destruct (correct_entry_scores_exit (demo_env 1 "long" "greedy") (demo_world 1 9700)
                1 9700
                {| Scenario.name := "FVG Long Setup";
                   Scenario.description := "Price pulled into FVG and bounced.";
                   Scenario.entry := "long";
                   Scenario.good_exit := "at supply zone";
                   Scenario.bad_exit := "holding through FVG close";
                   Scenario.chart := "fvg" |}) as (w' & E & _ & Hgreedy).
    + split; vm_compute; reflexivity.
    + lia.
    + reflexivity.
    + reflexivity.
    + vm_compute. reflexivity.
    + exists w'. split; [exact E |]. apply Hgreedy. vm_compute. reflexivity.
Defined.

(** C3. Whatever scenario is on screen and whatever the exit radio says,
    submitting skip shows "Skipped the trade." and leaves the balance as it
    was. *)
Theorem skip_keeps_balance (e : env) (w : world) (i b : Z) (sc : Scenario.t) :
  game_state w i b → (0 ≤ i < 4)%Z → scenarios !! Z.to_nat i = Some sc →
  clicked e = Some "Submit Decision" →
  entry_of e i = "skip" →
  ∃ w', show_game e w = Rerun w' ∧
        banners (page w') = banners (page w) ++ [Success "Skipped the trade."] ∧
        balance_of w' = Some b ∧
        balance_of w' = balance_of w.
Proof.
  intros Hgs Hrange Hsc Hclick Hentry.
  destruct (show_game_submit e w i b sc Hgs Hrange Hsc Hclick) as (w' & E & Hmsg & Hbal & _).
  exists w'. split; [done |]. revert Hmsg Hbal. unfold spec_submit.
  rewrite decide_True by done. cbn [fst snd]. rewrite Z.add_0_r.
  intros Hmsg Hbal. by rewrite (game_state_balance _ _ _ Hgs).
Qed.

Lemma skip_keeps_balance_witness :
  ∃ w', show_game (demo_env 3 "skip" "greedy") (demo_world 3 10400) = Rerun w' ∧
        banners (page w') =
          banners (page (demo_world 3 10400)) ++ [Success "Skipped the trade."] ∧
        balance_of w' = Some 10400%Z ∧
        balance_of w' = balance_of (demo_world 3 10400).
Proof.
  apply (skip_keeps_balance (demo_env 3 "skip" "greedy") (demo_world 3 10400) 3 10400
           {| Scenario.name := "ORB Failure";
              Scenario.description := "Price broke opening range high but reversed hard.";
              Scenario.entry := "long";
              Scenario.good_exit := "quick scalp on breakout";
              Scenario.bad_exit := "holding during pullback";
              Scenario.chart := "orb" |}).
  - split; vm_compute; reflexivity.
  - lia.
  - reflexivity.
  - reflexivity.
  - vm_compute. reflexivity.
Defined.

(** C10. What a submit shows and does to the balance does not depend on the
    balance: in two sessions at the same scenario, with the same browser
    input, the run shows the same message and moves both balances by the
    same delta. *)
Theorem submit_independent_of_balance (e : env) (w1 w2 : world) (i b1 b2 : Z) :
  game_state w1 i b1 → game_state w2 i b2 → (0 ≤ i < 4)%Z →
  clicked e = Some "Submit Decision" →
  ∃ w1' w2' msg delta,
    show_game e w1 = Rerun w1' ∧
    show_game e w2 = Rerun w2' ∧
    banners (page w1') = banners (page w1) ++ [Success msg] ∧
    banners (page w2') = banners (page w2) ++ [Success msg] ∧
    balance_of w1' = Some (b1 + delta)%Z ∧
    balance_of w2' = Some (b2 + delta)%Z.
Proof.
  intros Hgs1 Hgs2 Hrange Hclick.
  destruct (scenario_at i Hrange) as [sc Hsc].
  destruct (show_game_submit e w1 i b1 sc Hgs1 Hrange Hsc Hclick) as (w1' & E1 & M1 & B1 & _).
  destruct (show_game_submit e w2 i b2 sc Hgs2 Hrange Hsc Hclick) as (w2' & E2 & M2 & B2 & _).
  by eexists w1', w2', _, _.
Qed.

Lemma submit_independent_of_balance_witness :
  ∃ w1' w2' msg delta,
    show_game (demo_env 2 "long" "greedy") (demo_world 2 10000) = Rerun w1' ∧
    show_game (demo_env 2 "long" "greedy") (demo_world 2 9400) = Rerun w2' ∧
    banners (page w1') = banners (page (demo_world 2 10000)) ++ [Success msg] ∧
    banners (page w2') = banners (page (demo_world 2 9400)) ++ [Success msg] ∧
    balance_of w1' = Some (10000 + delta)%Z ∧
    balance_of w2' = Some (9400 + delta)%Z.
Proof.
  apply (submit_independent_of_balance (demo_env 2 "long" "greedy")
           (demo_world 2 10000) (demo_world 2 9400) 2 10000 9400).
  - split; vm_compute; reflexivity.
  - split; vm_compute; reflexivity.
  - lia.
  - reflexivity.
Defined.

(** ** Frame: what a run leaves alone *)

Lemma same_game_trans w1 w2 w3 : same_game w1 w2 → same_game w2 w3 → same_game w1 w3.
Proof. intros [H1 H2] [H3 H4]. split; congruence. Qed.

Lemma same_game_session w w' : session_state w' = session_state w → same_game w w'.
Proof. unfold same_game. by intros ->. Qed.

Section frame_rules.
Context (e : env).

Lemma frames_ret {A} (a : A) (Q : A → Prop) : Q a → frames e (ret a) Q.
Proof. intros HQ w. split; [done |]. by intros ? ? [= <- _]. Qed.

Lemma frames_raise {A} x (Q : A → Prop) : frames e (raise x) Q.
Proof. intros w. split; done. Qed.

Lemma frames_bind {A B} (m : M A) (k : A → M B) (Q : A → Prop) (R : B → Prop) :
  frames e m Q → (∀ a, Q a → frames e (k a) R) → frames e (bind m k) R.
Proof.
  intros Hm Hk w. destruct (Hm w) as [Hsame HQ]. unfold bind.
  destruct (m e w) as [a w1| w1 | x w1]; [| done | done].
  destruct (Hk a (HQ a w1 eq_refl) w1) as [Hsame' HR]. split; [| done].
  by eapply same_game_trans.
Qed.

Lemma frames_ask : frames e ask (λ e', e' = e).
Proof. intros w. split; [done |]. by intros ? ? [= <- _]. Qed.

Lemma frames_emit el : frames e (emit el) (λ _, True).
Proof. intros w. split; done. Qed.

Lemma frames_get_attr key : frames e (get_attr key) (λ _, True).
Proof. intros w. split; [| done]. unfold get_attr. by destruct (_ !! _). Qed.

Lemma frames_py_lt v n : frames e (py_lt v n) (λ _, True).
Proof. intros w. split; [| done]. by destruct v. Qed.

Lemma frames_py_gt v n : frames e (py_gt v n) (λ _, True).
Proof. intros w. split; [| done]. by destruct v. Qed.

Lemma frames_list_getitem {A} (l : list A) v : frames e (list_getitem l v) (λ _, True).
Proof.
  intros w. split; [| done]. destruct v as [i|?]; [| done].
  cbn [list_getitem]. by destruct (py_index l i).
Qed.

Lemma frames_set_attr key v :
  key ≠ "balance" → key ≠ "scenario_index" → frames e (set_attr key v) (λ _, True).
Proof.
  intros H1 H2 w. split; [| done].
  split; cbn [set_attr final_world set_session session_state]; by rewrite lookup_insert_ne.
Qed.

Lemma frames_st_radio label options key :
  key ≠ "balance" → key ≠ "scenario_index" →
  frames e (st_radio label options key) (λ _, True).
Proof.
  intros H1 H2. unfold st_radio.
  eapply frames_bind; [apply frames_ask |]. intros e' _.
  eapply frames_bind; [by apply frames_set_attr |]. intros _ _.
  eapply frames_bind; [apply frames_emit |]. intros _ _.
  by apply frames_ret.
Qed.

Lemma frames_st_button label :
  frames e (st_button label) (λ pressed, pressed = bool_decide (clicked e = Some label)).
Proof. intros w. split; [done |]. by intros ? ? [= <- _]. Qed.

Lemma frames_st_expander label body :
  frames e body (λ _, True) → frames e (st_expander label body) (λ _, True).
Proof.
  intros Hbody w. split; [| done]. unfold st_expander.
  destruct (Hbody {| session_state := session_state w; page := []; rng_pos := rng_pos w |})
    as [Hsame _].
  by destruct (body e _).
Qed.

Lemma frames_for_each {A} (l : list A) body :
  (∀ x, frames e (body x) (λ _, True)) → frames e (for_each l body) (λ _, True).
Proof.
  intros Hbody. induction l as [|x l IH]; cbn [for_each].
  - by apply frames_ret.
  - eapply frames_bind; [apply Hbody |]. by intros _ _.
Qed.

(** The chart code does not touch the session state at all. *)
Lemma plot_chart_session chart_type w :
  session_state (final_world (plot_chart chart_type e w)) = session_state w.
Proof. by destruct (plot_chart_ok chart_type e w) as [fig ->]. Qed.

Lemma frames_plot_chart chart_type : frames e (plot_chart chart_type) (λ _, True).
Proof. intros w. split; [| done]. apply same_game_session, plot_chart_session. Qed.

(** A run in which the submit button was not pressed. *)
Lemma frames_show_game :
  clicked e ≠ Some "Submit Decision" → frames e show_game (λ _, True).
Proof.
  intros Hclick. unfold show_game, st_title, st_subheader, st_markdown, st_header, st_write,
    st_success, st_error.
  eapply frames_bind; [apply frames_emit |]; intros _ _.
  eapply frames_bind; [apply frames_get_attr |]; intros balance _.
  eapply frames_bind; [apply frames_emit |]; intros _ _.
  eapply frames_bind; [apply frames_emit |]; intros _ _.
  eapply frames_bind; [apply frames_emit |]; intros _ _.
  eapply frames_bind.
  { apply frames_for_each. intros [key val]. apply frames_st_expander, frames_emit. }
  intros _ _.
  eapply frames_bind; [apply frames_emit |]; intros _ _.
  eapply frames_bind; [apply frames_get_attr |]; intros scenario_index _.
  eapply frames_bind; [apply frames_py_lt |]; intros playing _.
  destruct playing.
  - eapply frames_bind; [apply frames_get_attr |]; intros index0 _.
    eapply frames_bind; [apply frames_list_getitem |]; intros scenario _.
    eapply frames_bind; [apply frames_emit |]; intros _ _.
    eapply frames_bind; [apply frames_emit |]; intros _ _.
    eapply frames_bind; [apply frames_plot_chart |]; intros _ _.
    eapply frames_bind; [apply frames_get_attr |]; intros index1 _.
    eapply frames_bind;
      [apply frames_st_radio; [apply entry_key_balance | apply entry_key_index] |].
    intros entry _.
    eapply frames_bind; [apply frames_get_attr |]; intros index2 _.
    eapply frames_bind;
      [apply frames_st_radio; [apply exit_key_balance | apply exit_key_index] |].
    intros exit_choice _.
    eapply frames_bind; [apply frames_st_button |]. intros pressed ->.
    rewrite bool_decide_eq_false_2 by done. by apply frames_ret.
  - eapply frames_bind; [apply frames_emit |]; intros _ _.
    eapply frames_bind; [apply frames_get_attr |]; intros balance1 _.
    eapply frames_bind; [apply frames_emit |]; intros _ _.
    eapply frames_bind; [apply frames_get_attr |]; intros balance2 _.
    eapply frames_bind; [apply frames_py_gt |]; intros profitable _.
    destruct profitable; apply frames_emit.
Qed.
End frame_rules.

(** C7. A run of the page in which no decision is scored (the submit button
    was not pressed, or the game is over so there is no button) leaves
    balance and scenario index as they were, whatever else it does and even
    if it raises; reading the scenario list is a pure lookup; and the chart
    code leaves the whole session state untouched. *)
Theorem rendering_keeps_game_state (e : env) (w : world) :
  clicked e ≠ Some "Submit Decision" ∨ (∃ i b, game_state w i b ∧ (4 ≤ i)%Z) →
  same_game w (final_world (show_game e w)) ∧
  balance_of (final_world (show_game e w)) = balance_of w ∧
  index_of (final_world (show_game e w)) = index_of w ∧
  ∀ chart_type,
    session_state (final_world (plot_chart chart_type e w)) = session_state w.
Proof.
  intros H.
  assert (Hsame : same_game w (final_world (show_game e w))).
  { destruct H as [Hclick | (i & b & [Hi Hb] & Hover)].
    - by apply frames_show_game.
    - rewrite (show_game_over e w b i) by done. done. }
  split; [done |]. destruct Hsame as [Hb Hi].
  unfold balance_of, index_of. rewrite Hb, Hi.
  split; [done |]. split; [done |]. intros chart_type. apply plot_chart_session.
Qed.

Lemma rendering_keeps_game_state_witness :
  same_game (demo_world 4 10700)
    (final_world (show_game (demo_env 3 "long" "smart") (demo_world 4 10700))) ∧
  balance_of (final_world (show_game (demo_env 3 "long" "smart") (demo_world 4 10700)))
    = balance_of (demo_world 4 10700) ∧
  index_of (final_world (show_game (demo_env 3 "long" "smart") (demo_world 4 10700)))
    = index_of (demo_world 4 10700) ∧
  ∀ chart_type,
    session_state (final_world (plot_chart chart_type (demo_env 3 "long" "smart")
                                  (demo_world 4 10700)))
      = session_state (demo_world 4 10700).
Proof.
  apply (rendering_keeps_game_state (demo_env 3 "long" "smart") (demo_world 4 10700)).
  right. exists 4%Z, 10700%Z. split; [split; vm_compute; reflexivity | lia].
Defined.

(** ** Whole sessions *)

(** A session after its page load and the events [es]. *)
Lemma session_spec e0 es :
  let s := engine_run es (0%Z, 10000%Z) in
  let w := run_events es (load e0) in
  game_state w s.1 s.2 ∧ displays (page w) s.1 s.2.
Proof.
  destruct (load_spec e0) as [Hgs Hpg]. by apply run_events_spec.
Qed.

(** C4. A submit moves the scenario index forward by exactly one, whatever
    was chosen (skip included): in any state with a scenario on screen, and
    so along a whole session, where the index is the number of submits up to
    four.  The page offers the submit button as long as fewer than four
    decisions were submitted; from the fourth on there is no current
    scenario any more and the game-over branch renders instead. *)
Theorem submit_advances_four_times :
  (∀ e w i b,
     game_state w i b → (0 ≤ i < 4)%Z → clicked e = Some "Submit Decision" →
     index_of (final_world (show_game e w)) = Some (i + 1)%Z) ∧
  (∀ e0 es,
     let w := run_events es (load e0) in
     let k := count_submits es in
     index_of w = Some (Z.min 4 k) ∧
     submit_offered (page w) = (k <? 4)%Z ∧
     game_over_shown (page w) = negb (k <? 4)%Z ∧
     (4 ≤ k → py_index scenarios (Z.min 4 k) = None)%Z).
Proof.
  split.
  - intros e w i b Hgs Hrange Hclick.
    destruct (scenario_at i Hrange) as [sc Hsc].
    by destruct (show_game_submit e w i b sc Hgs Hrange Hsc Hclick) as (w' & -> & _ & _ & Hi).
  - intros e0 es w k.
    destruct (session_spec e0 es) as [Hgs Hpg].
    destruct (engine_run_spec es 0 10000) as [Hidx _]; [lia |].
    rewrite Z.add_0_l in Hidx. fold k in Hidx. rewrite Hidx in *.
    apply game_state_index in Hgs. apply displays_observed in Hpg as (Hbtn & Hover & _).
    pose proof (count_submits_nonneg es). fold k in H.
    assert (Hlt : (Z.min 4 k <? 4)%Z = (k <? 4)%Z).
    { destruct (Z.ltb_spec k 4); [apply Z.ltb_lt | apply Z.ltb_ge]; lia. }
    rewrite Hlt in *. repeat split; try done.
    intros Hk. by rewrite Z.min_l by lia.
Qed.

Lemma submit_advances_four_times_witness :
  index_of (final_world (show_game (demo_env 0 "skip" "smart") (demo_world 0 10000)))
    = Some 1%Z ∧
  index_of (run_events [demo_env 0 "skip" "smart"; demo_env 1 "long" "smart"]
              (load (demo_env 0 "long" "smart")))
    = Some 2%Z.
Proof.
  split.
  - apply (proj1 submit_advances_four_times (demo_env 0 "skip" "smart")
             (demo_world 0 10000) 0%Z 10000%Z).
    + split; vm_compute; reflexivity.
    + lia.
    + reflexivity.
  - apply (proj2 submit_advances_four_times (demo_env 0 "long" "smart")
             [demo_env 0 "skip" "smart"; demo_env 1 "long" "smart"]).
Defined.

(** C5. Whatever the events of a session are (submit clicks, and runs
    without a click such as radio picks, in any order), its balance is 10000
    plus the sum of the deltas the scoring rule gives for the submitted
    decisions, of which there are as many as submits, at most four.  Once
    four decisions are submitted the game-over screen is on and shows the
    "Well done" success banner exactly when the final balance is above 10000
    and the review banner otherwise; at exactly 10000 it shows the review
    banner.  Before that, no verdict is shown. *)
Theorem final_balance_and_verdict (e0 : env) (es : list env) :
  let w := run_events es (load e0) in
  let b := (10000 + sumZ (decision_deltas 0 es))%Z in
  balance_of w = Some b ∧
  Z.of_nat (length (decision_deltas 0 es)) = Z.min 4 (count_submits es) ∧
  ((4 ≤ count_submits es)%Z →
   game_over_shown (page w) = true ∧
   banners (page w) =
     [if (10000 <? b)%Z then Success "Well done! You made profitable decisions."
      else Error "You need more practice. Review the concepts and try again."] ∧
   (banners (page w) = [Success "Well done! You made profitable decisions."]
    ↔ (10000 < b)%Z) ∧
   (b = 10000%Z →
    banners (page w)
      = [Error "You need more practice. Review the concepts and try again."])) ∧
  ((count_submits es < 4)%Z →
   game_over_shown (page w) = false ∧ banners (page w) = []).
Proof.
  intros w b.
  destruct (session_spec e0 es) as [Hgs Hpg].
  destruct (engine_run_spec es 0 10000) as [Hidx _]; [lia |].
  pose proof (engine_run_decisions es 0 10000 ltac:(lia)) as Hbal.
  change (Z.of_nat 0) with 0%Z in Hbal.
  rewrite Z.add_0_l in Hidx. rewrite Hidx, Hbal in *. fold b in Hgs, Hpg.
  apply game_state_balance in Hgs. apply displays_observed in Hpg as (_ & Hover & Hban).
  pose proof (count_submits_nonneg es) as Hk.
  subst w. split; [done |]. split.
  { rewrite decision_deltas_length by lia. change (Z.of_nat 0) with 0%Z. lia. }
  split.
  - intros Hfour. rewrite Z.min_l in Hover, Hban by lia.
    change (4 <? 4)%Z with false in *. cbn [negb] in Hover. unfold verdict in Hban.
    split; [done |]. split; [done |]. rewrite Hban. split.
    + destruct (Z.ltb_spec 10000 b); split; (done || lia).
    + intros ->. done.
  - intros Hless. rewrite Z.min_r in Hover, Hban by lia.
    replace (count_submits es <? 4)%Z with true in * by (symmetry; apply Z.ltb_lt; lia).
    done.
Qed.

Lemma final_balance_and_verdict_witness :
  let es := [without_click (demo_env 0 "short" "smart"); demo_env 0 "short" "smart";
             without_click (demo_env 1 "short" "smart"); demo_env 1 "short" "smart";
             demo_env 2 "long" "greedy"; without_click (demo_env 3 "long" "smart");
             demo_env 3 "skip" "smart"] in
  let w := run_events es (load (demo_env 0 "long" "smart")) in
  let b := (10000 + sumZ (decision_deltas 0 es))%Z in
  balance_of w = Some b ∧
  game_over_shown (page w) = true ∧
  banners (page w) =
    [if (10000 <? b)%Z then Success "Well done! You made profitable decisions."
     else Error "You need more practice. Review the concepts and try again."] ∧
  (banners (page w) = [Success "Well done! You made profitable decisions."]
   ↔ (10000 < b)%Z) ∧
  (b = 10000%Z →
   banners (page w) = [Error "You need more practice. Review the concepts and try again."]).
Proof.
  intros es.
  destruct (final_balance_and_verdict (demo_env 0 "long" "smart") es)
    as (Hbal & _ & Hover & _).
  split; [exact Hbal |]. apply Hover. vm_compute. discriminate.
Defined.

(** A session with radio picks between the submits, run on the model: the
    runs without a click change nothing, the four decisions (a smart exit, a
    wrong entry, a greedy exit, a skip) end on exactly 10000, and the
    deltas of the rule are those four. *)
Example session_with_radio_picks :
  let es := [without_click (demo_env 0 "short" "smart"); demo_env 0 "short" "smart";
             without_click (demo_env 1 "short" "smart"); demo_env 1 "short" "smart";
             demo_env 2 "long" "greedy"; without_click (demo_env 3 "long" "smart");
             demo_env 3 "skip" "smart"] in
  let w := run_events es (load (demo_env 0 "long" "smart")) in
  decision_deltas 0 es = [500; -300; -200; 0]%Z ∧
  balance_of w = Some 10000%Z ∧ index_of w = Some 4%Z ∧
  banners (page w) = [Error "You need more practice. Review the concepts and try again."].
Proof. vm_compute. done. Qed.

(** Four submits and nothing else, run on the model: one smart exit,
    one wrong entry, one greedy exit and one skip end on exactly 10000, and
    the game-over screen shows the review banner. *)
Example break_even_session :
  let w := run_events [demo_env 0 "short" "smart"; demo_env 1 "short" "smart";
                       demo_env 2 "long" "greedy"; demo_env 3 "skip" "smart"]
             (load (demo_env 0 "long" "smart")) in
  balance_of w = Some 10000%Z ∧ index_of w = Some 4%Z ∧
  banners (page w) = [Error "You need more practice. Review the concepts and try again."].
Proof. vm_compute. done. Qed.

(** The example run of the specification: long on the first scenario (a
    short setup) is a wrong entry, the balance goes to 9700 and the index
    to 1. *)
Example spec_example_run :
  let w := run_events [demo_env 0 "long" "smart"] (load (demo_env 0 "long" "smart")) in
  balance_of w = Some 9700%Z ∧ index_of w = Some 1%Z.
Proof. vm_compute. done. Qed.

(** C6. In every reachable session the scenario index lies between 0 and 4,
    the number of scenarios; the session is playing (a scenario with the
    submit button is on screen) exactly when the index is below 4 and over
    (the game-over screen is on) exactly when it is 4; an interaction never
    lowers the index, changes it only by a submit while playing, and then by
    one; and a session that is over stays over. *)
Theorem index_invariant_no_reset (w : world) :
  reachable w →
  ∃ i, index_of w = Some i ∧
       (0 ≤ i ≤ Z.of_nat (length scenarios))%Z ∧ length scenarios = 4 ∧
       (phase_of w = Some Playing ↔ (i < 4)%Z) ∧
       (phase_of w = Some GameOver ↔ i = 4%Z) ∧
       submit_offered (page w) = (i <? 4)%Z ∧
       game_over_shown (page w) = (i =? 4)%Z ∧
       ∀ e, ∃ i', index_of (final_world (interact e w)) = Some i' ∧
                  (i ≤ i')%Z ∧
                  (i' ≠ i →
                   i' = (i + 1)%Z ∧ phase_of w = Some Playing ∧
                   clicked e = Some "Submit Decision") ∧
                  (phase_of w = Some GameOver →
                   phase_of (final_world (interact e w)) = Some GameOver).
Proof.
  intros Hreach. destruct (reachable_inv w Hreach) as (i & b & Hgs & Hi & _ & Hpg).
  pose proof (game_state_index _ _ _ Hgs) as Hidx.
  apply displays_observed in Hpg as (Hbtn & Hover & _).
  assert (Hphase : phase_of w = Some (if (i <? 4)%Z then Playing else GameOver)).
  { unfold phase_of. by rewrite Hidx. }
  exists i. split; [done |]. split; [simpl; lia |]. split; [done |].
  split; [| split; [| split; [done | split]]].
  - rewrite Hphase. destruct (Z.ltb_spec i 4); split; (done || lia).
  - rewrite Hphase. destruct (Z.ltb_spec i 4); split; (done || lia).
  - rewrite Hover. destruct (Z.ltb_spec i 4), (Z.eqb_spec i 4); (done || lia).
  - intros e. destruct (interact_spec e w i b Hgs Hi) as (w' & -> & Hgs' & _).
    cbn [final_world]. apply game_state_index in Hgs'.
    rewrite (engine_step_index e i b Hi) in Hgs'.
    eexists. split; [exact Hgs' |].
    unfold phase_of. rewrite Hgs', Hidx. unfold submitting.
    change (Z.of_nat (length scenarios)) with 4%Z.
    destruct (Z.ltb_spec i 4) as [Hlt|Hge]; cbn [andb].
    + case_bool_decide as Hclick.
      * split; [lia |]. split; [by intros _ |]. intros [=].
      * split; [lia |]. split; [done |]. intros [=].
    + split; [lia |]. split; [done |]. intros _.
      by destruct (Z.ltb_spec i 4); [lia |].
Qed.

Lemma index_invariant_no_reset_witness :
  ∃ i, index_of (load (demo_env 0 "long" "smart")) = Some i ∧
       (0 ≤ i ≤ Z.of_nat (length scenarios))%Z ∧ length scenarios = 4 ∧
       (phase_of (load (demo_env 0 "long" "smart")) = Some Playing ↔ (i < 4)%Z) ∧
       (phase_of (load (demo_env 0 "long" "smart")) = Some GameOver ↔ i = 4%Z) ∧
       submit_offered (page (load (demo_env 0 "long" "smart"))) = (i <? 4)%Z ∧
       game_over_shown (page (load (demo_env 0 "long" "smart"))) = (i =? 4)%Z ∧
       ∀ e, ∃ i',
         index_of (final_world (interact e (load (demo_env 0 "long" "smart")))) = Some i' ∧
         (i ≤ i')%Z ∧
         (i' ≠ i →
          i' = (i + 1)%Z ∧ phase_of (load (demo_env 0 "long" "smart")) = Some Playing ∧
          clicked e = Some "Submit Decision") ∧
         (phase_of (load (demo_env 0 "long" "smart")) = Some GameOver →
          phase_of (final_world (interact e (load (demo_env 0 "long" "smart"))))
            = Some GameOver).
Proof.
  apply (index_invariant_no_reset (load (demo_env 0 "long" "smart"))).
  apply reachable_load.
Defined.

(** C9. After a page load and any events of which [k] are submits (at most
    four can be), the balance lies between 10000 - 300 k and 10000 + 500 k;
    so it always lies between 8800 and 12000 and is positive. *)
Theorem balance_bounds (e0 : env) (es : list env) :
  let w := run_events es (load e0) in
  let k := Z.min 4 (count_submits es) in
  ∃ b, balance_of w = Some b ∧
       index_of w = Some k ∧
       (0 ≤ k ≤ 4)%Z ∧
       (10000 - 300 * k ≤ b ≤ 10000 + 500 * k)%Z ∧
       (8800 ≤ b ≤ 12000)%Z ∧
       (0 < b)%Z.
Proof.
  intros w k. destruct (session_spec e0 es) as [Hgs _].
  destruct (engine_run_spec es 0 10000) as [Hidx Hb]; [lia |].
  rewrite Z.add_0_l in Hidx. fold k in Hidx. rewrite Hidx in *.
  pose proof (count_submits_nonneg es).
  exists (engine_run es (0%Z, 10000%Z)).2.
  split; [by apply game_state_balance in Hgs |].
  split; [by apply game_state_index in Hgs |].
  subst k. lia.
Qed.

(** ** The other charts *)

Lemma base_series_length e w : length (base_series e w) = 10.
Proof. unfold base_series. by rewrite cumsum_length, length_fmap, length_seq. Qed.

Lemma figures_snoc pg fig : figures (pg ++ [Pyplot fig]) = figures pg ++ [fig].
Proof. unfold figures. by rewrite bind_app. Qed.

(** [plot_chart] around its branches: draw, add the legend, show. *)
Lemma plot_chart_draws chart_type e w ax :
  draw_chart chart_type [] (np_arange 10) (base_series e w) e
    {| session_state := session_state w; page := page w; rng_pos := rng_pos w + 10 |}
  = Ok ax {| session_state := session_state w; page := page w; rng_pos := rng_pos w + 10 |} →
  plot_chart chart_type e w = Ok tt (charted w (ax ++ [Legend])).
Proof.
  intros Hdraw. unfold plot_chart, bind. rewrite np_random_normal_10.
  fold (base_series e w). by rewrite Hdraw.
Qed.

Lemma iadd_item_at a i d x e w :
  a !! i = Some x → iadd_item a i d e w = Ok (<[i := (x + d)%float]> a) w.
Proof. intros Hx. unfold iadd_item, bind, getitem. by rewrite Hx. Qed.

Lemma getitem_at a i x e w : a !! i = Some x → getitem a i e w = Ok x w.
Proof. intros Hx. unfold getitem. by rewrite Hx. Qed.

Lemma iadd_from_lookup a n d i :
  iadd_from a n d !! i =
    if decide (i < n) then a !! i else (λ x, (x + d)%float) <$> a !! i.
Proof.
  unfold iadd_from. case_decide as Hi.
  - destruct (decide (i < length a)) as [Hlen|Hlen].
    + rewrite lookup_app_l by (rewrite length_take; lia). by rewrite lookup_take_lt.
    + rewrite (lookup_ge_None_2 a i) by lia. apply lookup_ge_None_2.
      rewrite length_app, length_fmap, length_take, length_drop. lia.
  - destruct (decide (n ≤ length a)) as [Hlen|Hlen].
    + rewrite lookup_app_r by (rewrite length_take; lia).
      rewrite length_take, Nat.min_l by lia.
      rewrite list_lookup_fmap, lookup_drop. f_equal. f_equal. lia.
    + rewrite take_ge, drop_ge by lia. cbn [fmap list_fmap]. rewrite app_nil_r.
      by rewrite (lookup_ge_None_2 a i) by lia.
Qed.

Lemma isub_from_lookup a n d i :
  isub_from a n d !! i =
    if decide (i < n) then a !! i else (λ x, (x - d)%float) <$> a !! i.
Proof.
  unfold isub_from. case_decide as Hi.
  - destruct (decide (i < length a)) as [Hlen|Hlen].
    + rewrite lookup_app_l by (rewrite length_take; lia). by rewrite lookup_take_lt.
    + rewrite (lookup_ge_None_2 a i) by lia. apply lookup_ge_None_2.
      rewrite length_app, length_fmap, length_take, length_drop. lia.
  - destruct (decide (n ≤ length a)) as [Hlen|Hlen].
    + rewrite lookup_app_r by (rewrite length_take; lia).
      rewrite length_take, Nat.min_l by lia.
      rewrite list_lookup_fmap, lookup_drop. f_equal. f_equal. lia.
    + rewrite take_ge, drop_ge by lia. cbn [fmap list_fmap]. rewrite app_nil_r.
      by rewrite (lookup_ge_None_2 a i) by lia.
Qed.

(** X1. The liquidity chart draws its "Previous High" line at point 5 of
    the base series: the two perturbations (points 6 and 7) do not reach it,
    and the figure is the price plot, that line, the title and the legend. *)
Theorem liquidity_chart_figure (e : env) (w : world) :
  let base := base_series e w in
  ∃ w' b5 b6 b7,
    plot_chart "liquidity" e w = Ok tt w' ∧
    base !! 5 = Some b5 ∧ base !! 6 = Some b6 ∧ base !! 7 = Some b7 ∧
    figures (page w') =
      figures (page w) ++
      [[Plot (np_arange 10) (<[7 := (b7 - 6)%float]> (<[6 := (b6 + 5)%float]> base)) "Price";
        AxHLine b5 "red" "--" "Previous High";
        SetTitle "Liquidity Grab Example";
        Legend]].
Proof.
  intros base. pose proof (base_series_length e w) as Hlen. fold base in Hlen.
  destruct (lookup_lt_is_Some_2 base 5) as [b5 H5]; [lia |].
  destruct (lookup_lt_is_Some_2 base 6) as [b6 H6]; [lia |].
  destruct (lookup_lt_is_Some_2 base 7) as [b7 H7]; [lia |].
  eexists _, b5, b6, b7. split; [| split; [done | split; [done | split; [done |]]]].
  - apply plot_chart_draws. fold base.
    change (draw_chart "liquidity" [] (np_arange 10) base) with
      (do price <- iadd_item base 6 5;
       do price <- isub_item price 7 6;
       do price_5 <- getitem price 5;
       ret (ax_set_title
              (ax_axhline (ax_plot [] (np_arange 10) price "Price") price_5
                 "red" "--" "Previous High") "Liquidity Grab Example")).
    erewrite bind_Ok by (by apply iadd_item_at). cbv beta.
    erewrite bind_Ok
      by (unfold isub_item, bind, getitem; by rewrite list_lookup_insert_ne, H7 by lia).
    cbv beta.
    erewrite bind_Ok
      by (apply getitem_at; by rewrite !list_lookup_insert_ne by lia).
    reflexivity.
  - cbn [charted page]. by rewrite figures_snoc.
Qed.

(** X2. The FVG chart plots the base series with 5 added to point 4, 7 to
    point 5 and 3 to point 6, every other point as drawn, under a yellow span
    from 4.5 to 5.5; the three updates are in range and nothing is raised. *)
Theorem fvg_chart_figure (e : env) (w : world) :
  let base := base_series e w in
  ∃ w' b4 b5 b6,
    plot_chart "fvg" e w = Ok tt w' ∧
    base !! 4 = Some b4 ∧ base !! 5 = Some b5 ∧ base !! 6 = Some b6 ∧
    figures (page w') =
      figures (page w) ++
      [[Plot (np_arange 10)
          (<[6 := (b6 + 3)%float]> (<[5 := (b5 + 7)%float]> (<[4 := (b4 + 5)%float]> base)))
          "Price";
        AxVSpan 4.5 5.5 "yellow" 0.3 "FVG";
        SetTitle "FVG Example";
        Legend]].
Proof.
  intros base. pose proof (base_series_length e w) as Hlen. fold base in Hlen.
  destruct (lookup_lt_is_Some_2 base 4) as [b4 H4]; [lia |].
  destruct (lookup_lt_is_Some_2 base 5) as [b5 H5]; [lia |].
  destruct (lookup_lt_is_Some_2 base 6) as [b6 H6]; [lia |].
  eexists _, b4, b5, b6. split; [| split; [done | split; [done | split; [done |]]]].
  - apply plot_chart_draws. fold base.
    change (draw_chart "fvg" [] (np_arange 10) base) with
      (do price <- iadd_item base 4 5;
       do price <- iadd_item price 5 7;
       do price <- iadd_item price 6 3;
       ret (ax_set_title
              (ax_axvspan (ax_plot [] (np_arange 10) price "Price") 4.5 5.5 "yellow" 0.3 "FVG")
              "FVG Example")).
    erewrite bind_Ok by (by apply iadd_item_at). cbv beta.
    erewrite bind_Ok by (apply iadd_item_at; by rewrite list_lookup_insert_ne by lia).
    cbv beta.
    erewrite bind_Ok by (apply iadd_item_at; by rewrite !list_lookup_insert_ne by lia).
    reflexivity.
  - cbn [charted page]. by rewrite figures_snoc.
Qed.

(** X3. The BOS chart plots the base series with 6 added to every point
    from 5 on and the points before as drawn; its "Structure Break" line is
    read after the shift but at point 4, so it sits at the last unshifted
    point of the base series. *)
Theorem bos_chart_figure (e : env) (w : world) :
  let base := base_series e w in
  ∃ w' b4 plotted,
    plot_chart "bos" e w = Ok tt w' ∧
    base !! 4 = Some b4 ∧
    length plotted = 10 ∧
    (∀ i, i < 5 → plotted !! i = base !! i) ∧
    (∀ i, 5 ≤ i → plotted !! i = (λ x, (x + 6)%float) <$> base !! i) ∧
    figures (page w') =
      figures (page w) ++
      [[Plot (np_arange 10) plotted "Price";
        AxHLine b4 "green" "--" "Structure Break";
        SetTitle "Break of Structure (BOS)";
        Legend]].
Proof.
  intros base. pose proof (base_series_length e w) as Hlen. fold base in Hlen.
  destruct (lookup_lt_is_Some_2 base 4) as [b4 H4]; [lia |].
  eexists _, b4, (iadd_from base 5 6).
  split; [| split; [done | split; [| split; [| split]]]].
  - apply plot_chart_draws. fold base.
    change (draw_chart "bos" [] (np_arange 10) base) with
      (do price_4 <- getitem (iadd_from base 5 6) 4;
       ret (ax_set_title
              (ax_axhline (ax_plot [] (np_arange 10) (iadd_from base 5 6) "Price") price_4
                 "green" "--" "Structure Break") "Break of Structure (BOS)")).
    erewrite bind_Ok
      by (apply getitem_at; rewrite iadd_from_lookup, decide_True by lia; exact H4).
    reflexivity.
  - by rewrite iadd_from_length.
  - intros i Hi. by rewrite iadd_from_lookup, decide_True by lia.
  - intros i Hi. by rewrite iadd_from_lookup, decide_False by lia.
  - cbn [charted page]. by rewrite figures_snoc.
Qed.

Lemma fmin_cases x y : fmin x y = x ∨ fmin x y = y.
Proof. unfold fmin. destruct (is_nan x), (is_nan y), (y <? x)%float; auto. Qed.

Lemma fmax_cases x y : fmax x y = x ∨ fmax x y = y.
Proof. unfold fmax. destruct (is_nan x), (is_nan y), (x <? y)%float; auto. Qed.

Lemma foldl_pick_elem (f : float → float → float) x a :
  (∀ y z, f y z = y ∨ f y z = z) → foldl f x a ∈ x :: a.
Proof.
  intros Hf. revert x. induction a as [|y a IH]; intros x; cbn [foldl].
  - apply list_elem_of_here.
  - specialize (IH (f x y)). apply elem_of_cons in IH as [-> | IH].
    + destruct (Hf x y) as [-> | ->]; set_solver.
    + set_solver.
Qed.

Lemma np_min_elem a x e w w' : np_min a e w = Ok x w' → x ∈ a ∧ w' = w.
Proof.
  destruct a as [|y a]; [done |]. intros [= <- <-].
  split; [| done]. apply foldl_pick_elem, fmin_cases.
Qed.

Lemma np_max_elem a x e w w' : np_max a e w = Ok x w' → x ∈ a ∧ w' = w.
Proof.
  destruct a as [|y a]; [done |]. intros [= <- <-].
  split; [| done]. apply foldl_pick_elem, fmax_cases.
Qed.

Lemma isub_from_length a i d : length (isub_from a i d) = length a.
Proof.
  unfold isub_from. rewrite length_app, length_fmap, length_take, length_drop. lia.
Qed.

(** X4. The ORB chart takes the opening range from the first three points
    before it shifts anything: both range lines sit at the level of one of
    the first three points of the base series, the plot shows those points
    (and point 3) as drawn and every point from 4 on lowered by 4. *)
Theorem orb_chart_figure (e : env) (w : world) :
  let base := base_series e w in
  ∃ w' lo hi plotted,
    plot_chart "orb" e w = Ok tt w' ∧
    lo ∈ take 3 base ∧ hi ∈ take 3 base ∧
    length plotted = 10 ∧
    (∀ i, i < 4 → plotted !! i = base !! i) ∧
    (∀ i, 4 ≤ i → plotted !! i = (λ x, (x - 4)%float) <$> base !! i) ∧
    figures (page w') =
      figures (page w) ++
      [[Plot (np_arange 10) plotted "Price";
        AxHLine lo "purple" "--" "ORB Low";
        AxHLine hi "orange" "--" "ORB High";
        SetTitle "Opening Range Breakout (ORB)";
        Legend]].
Proof.
  intros base. pose proof (base_series_length e w) as Hlen. fold base in Hlen.
  set (w1 := {| session_state := session_state w; page := page w;
                rng_pos := rng_pos w + 10 |}).
  destruct (np_min_nonempty (take 3 base) e w1) as [lo Hlo]; [rewrite length_take; lia |].
  destruct (np_max_nonempty (take 3 base) e w1) as [hi Hhi]; [rewrite length_take; lia |].
  eexists _, lo, hi, (isub_from base 4 4).
  split; [| split; [| split; [| split; [| split; [| split]]]]].
  - apply plot_chart_draws. fold base w1.
    change (draw_chart "orb" [] (np_arange 10) base) with
      (do lo <- np_min (take 3 base);
       do hi <- np_max (take 3 base);
       ret (ax_set_title
              (ax_axhline
                 (ax_axhline (ax_plot [] (np_arange 10) (isub_from base 4 4) "Price")
                    lo "purple" "--" "ORB Low")
                 hi "orange" "--" "ORB High")
              "Opening Range Breakout (ORB)")).
    erewrite bind_Ok by exact Hlo. cbv beta.
    erewrite bind_Ok by exact Hhi. reflexivity.
  - by apply np_min_elem in Hlo as [? _].
  - by apply np_max_elem in Hhi as [? _].
  - by rewrite isub_from_length.
  - intros i Hi. by rewrite isub_from_lookup, decide_True by lia.
  - intros i Hi. by rewrite isub_from_lookup, decide_False by lia.
  - cbn [charted page]. by rewrite figures_snoc.
Qed.

(** X5. A chart type the function does not know is no error: the samples
    are drawn all the same and the figure shown holds the legend alone. *)
Theorem unknown_chart_is_blank (chart_type : string) (e : env) (w : world) :
  chart_type ≠ "liquidity" → chart_type ≠ "fvg" →
  chart_type ≠ "bos" → chart_type ≠ "orb" →
  ∃ w', plot_chart chart_type e w = Ok tt w' ∧
        figures (page w') = figures (page w) ++ [[Legend]] ∧
        rng_pos w' = rng_pos w + 10.
Proof.
  intros H1 H2 H3 H4. exists (charted w ([] ++ [Legend])). split; [| split].
  - apply plot_chart_draws. unfold draw_chart.
    rewrite (proj2 (String.eqb_neq _ _) H1), (proj2 (String.eqb_neq _ _) H2),
      (proj2 (String.eqb_neq _ _) H3), (proj2 (String.eqb_neq _ _) H4).
    reflexivity.
  - cbn [charted page]. by rewrite figures_snoc.
  - reflexivity.
Qed.

Lemma unknown_chart_is_blank_witness :
  ∃ w', plot_chart "volume" (demo_env 0 "long" "smart") (demo_world 0 10000) = Ok tt w' ∧
        figures (page w') = figures (page (demo_world 0 10000)) ++ [[Legend]] ∧
        rng_pos w' = rng_pos (demo_world 0 10000) + 10.
Proof.
  apply (unknown_chart_is_blank "volume" (demo_env 0 "long" "smart") (demo_world 0 10000));
    discriminate.
Defined.

(** X6. Whatever the chart type, [plot_chart] raises nothing (every index
    it uses exists in the ten-point series), shows exactly one figure, which
    ends with the legend, takes exactly ten samples from the generator and
    leaves the session state alone. *)
Theorem plot_chart_never_raises (chart_type : string) (e : env) (w : world) :
  ∃ w' fig,
    plot_chart chart_type e w = Ok tt w' ∧
    page w' = page w ++ [Pyplot fig] ∧
    last fig = Some Legend ∧
    rng_pos w' = rng_pos w + 10 ∧
    session_state w' = session_state w.
Proof.
  destruct (draw_chart_ok chart_type [] (np_arange 10) (base_series e w) e
              {| session_state := session_state w; page := page w;
                 rng_pos := rng_pos w + 10 |}) as [ax Hax].
  { apply base_series_length. }
  exists (charted w (ax ++ [Legend])), (ax ++ [Legend]).
  split; [by apply plot_chart_draws |].
  split; [done |]. split; [apply last_snoc | done].
Qed.

(** ** The start of a run *)

(** Both attributes exist, whatever they hold: lines 18-21 do nothing. *)
Lemma init_session_noop e w :
  is_Some (session_state w !! "balance") →
  is_Some (session_state w !! "scenario_index") →
  init_session e w = Ok tt w.
Proof.
  intros Hb Hi. unfold init_session, contains, bind.
  rewrite (bool_decide_eq_true_2 _ Hb). cbn [negb ret].
  by rewrite (bool_decide_eq_true_2 _ Hi).
Qed.

(** X7. The initialisation of lines 18-21 never raises and never overwrites:
    an attribute that exists keeps its value whatever it is, a missing
    balance becomes 10000 and a missing scenario index 0, no other key, the
    page and the generator are touched, and running it again changes
    nothing. *)
Theorem init_session_creates_missing_only (e : env) (w : world) :
  ∃ w',
    init_session e w = Ok tt w' ∧
    session_state w' !! "balance"
      = Some (default (VInt 10000) (session_state w !! "balance")) ∧
    session_state w' !! "scenario_index"
      = Some (default (VInt 0) (session_state w !! "scenario_index")) ∧
    (∀ k, k ≠ "balance" → k ≠ "scenario_index" →
          session_state w' !! k = session_state w !! k) ∧
    page w' = page w ∧ rng_pos w' = rng_pos w ∧
    init_session e w' = Ok tt w'.
Proof.
  assert (∃ w',
    init_session e w = Ok tt w' ∧
    session_state w' !! "balance"
      = Some (default (VInt 10000) (session_state w !! "balance")) ∧
    session_state w' !! "scenario_index"
      = Some (default (VInt 0) (session_state w !! "scenario_index")) ∧
    (∀ k, k ≠ "balance" → k ≠ "scenario_index" →
          session_state w' !! k = session_state w !! k) ∧
    page w' = page w ∧ rng_pos w' = rng_pos w) as (w' & E & Hb & Hi & Hk & Hpg & Hpos).
  { destruct w as [ss pg pos].
    unfold init_session, contains, bind, set_attr, set_session, ret.
    cbn [session_state page rng_pos].
    destruct (ss !! "balance") as [vb|] eqn:Hb.
    - rewrite (bool_decide_eq_true_2 (is_Some (Some vb))) by eauto.
      cbn [negb session_state page rng_pos].
      destruct (ss !! "scenario_index") as [vi|] eqn:Hi.
      + rewrite (bool_decide_eq_true_2 (is_Some (Some vi))) by eauto. cbn [negb].
        eexists. split; [reflexivity |]. cbn [session_state page rng_pos default].
        by rewrite Hb, Hi.
      + rewrite (bool_decide_eq_false_2 (is_Some None)) by (by intros [? ?]). cbn [negb].
        eexists. split; [reflexivity |]. cbn [session_state page rng_pos default].
        rewrite lookup_insert_eq, lookup_insert_ne, Hb by done.
        repeat split; try done. intros k _ Hk. by rewrite lookup_insert_ne.
    - rewrite (bool_decide_eq_false_2 (is_Some None)) by (by intros [? ?]).
      cbn [negb session_state page rng_pos].
      rewrite lookup_insert_ne by done.
      destruct (ss !! "scenario_index") as [vi|] eqn:Hi.
      + rewrite (bool_decide_eq_true_2 (is_Some (Some vi))) by eauto. cbn [negb].
        eexists. split; [reflexivity |]. cbn [session_state page rng_pos default].
        rewrite lookup_insert_eq, lookup_insert_ne, Hi by done.
        repeat split; try done. intros k Hk _. by rewrite lookup_insert_ne.
      + rewrite (bool_decide_eq_false_2 (is_Some None)) by (by intros [? ?]). cbn [negb].
        eexists. split; [reflexivity |]. cbn [session_state page rng_pos default].
        rewrite lookup_insert_eq, lookup_insert_ne, lookup_insert_eq by done.
        repeat split; try done. intros k Hk1 Hk2. by rewrite !lookup_insert_ne. }
  exists w'. repeat split; try done.
  apply init_session_noop; [rewrite Hb | rewrite Hi]; eauto.
Qed.

Lemma bind_Raised {A B} (m : M A) (k : A → M B) e w x w' :
  m e w = Raised x w' → bind m k e w = Raised x w'.
Proof. unfold bind. by intros ->. Qed.

Lemma get_attr_missing k e w :
  session_state w !! k = None → get_attr k e w = Raised (AttributeError k) w.
Proof. intros H. unfold get_attr. by rewrite H. Qed.

(** X8. [show_game] relies on that initialisation: called on a session
    state that lacks the balance or the scenario index it raises the
    AttributeError of the missing attribute, before any widget is created,
    and leaves the session state and the generator as they were. *)
Theorem show_game_needs_attributes (e : env) (w : world) :
  session_state w !! "balance" = None ∨ session_state w !! "scenario_index" = None →
  ∃ k w',
    show_game e w = Raised (AttributeError k) w' ∧
    (k = "balance" ∨ k = "scenario_index") ∧
    session_state w !! k = None ∧
    session_state w' = session_state w ∧
    rng_pos w' = rng_pos w.
Proof.
  intros Hmissing.
  destruct (session_state w !! "balance") as [vb|] eqn:Hb.
  - destruct Hmissing as [? | Hi]; [done |].
    exists "scenario_index",
      {| session_state := session_state w; page := page w ++ page_head vb;
         rng_pos := rng_pos w |}.
    split; [| by auto].
    unfold show_game. rewrite (show_game_head e w vb) by done.
    by apply bind_Raised, get_attr_missing.
  - exists "balance",
      {| session_state := session_state w;
         page := page w ++ [Title "Stock Market Game with Visual Learning"];
         rng_pos := rng_pos w |}.
    split; [| by auto].
    unfold show_game, st_title. rewrite bind_emit.
    by apply bind_Raised, get_attr_missing.
Qed.

Lemma show_game_needs_attributes_witness :
  ∃ k w',
    show_game (demo_env 0 "long" "smart") new_session = Raised (AttributeError k) w' ∧
    (k = "balance" ∨ k = "scenario_index") ∧
    session_state new_session !! k = None ∧
    session_state w' = session_state new_session ∧
    rng_pos w' = rng_pos new_session.
Proof.
  apply (show_game_needs_attributes (demo_env 0 "long" "smart") new_session).
  left. reflexivity.
Defined.

(** ** Reachable sessions *)

(** X9. In a reachable session no interaction raises: the first run of the
    script ends normally or asks for the rerun, and the interaction as a
    whole ends normally, in a reachable session again. *)
Theorem reachable_never_raises (w : world) (e : env) :
  reachable w →
  (∀ x w', script e (fresh_page w) ≠ Raised x w') ∧
  ∃ w', interact e w = Ok tt w' ∧ reachable w'.
Proof.
  intros Hreach. destruct (reachable_inv w Hreach) as (i & b & Hgs & Hi & _ & _).
  split.
  - intros x w'.
    destruct (script_spec e (fresh_page w) i b) as (w1 & -> & _);
      [by apply game_state_fresh_page | done | done |].
    by destruct (_ && _)%bool.
  - destruct (interact_spec e w i b Hgs Hi) as (w' & E & _).
    exists w'. split; [done |].
    replace w' with (final_world (interact e w)) by (by rewrite E).
    by apply reachable_event.
Qed.

Lemma reachable_never_raises_witness :
  (∀ x w',
     script (demo_env 0 "short" "smart") (fresh_page (load (demo_env 0 "long" "smart")))
       ≠ Raised x w') ∧
  ∃ w', interact (demo_env 0 "short" "smart") (load (demo_env 0 "long" "smart")) = Ok tt w' ∧
        reachable w'.
Proof.
  apply (reachable_never_raises (load (demo_env 0 "long" "smart"))
           (demo_env 0 "short" "smart")).
  apply reachable_load.
Defined.

(** X10. The page a reachable session has on screen is always the rendering
    of its current state: the head with the current balance, followed by the
    current scenario with its chart, its two radios (keyed by the scenario
    index) and the submit button while the index is below 4, and by the
    game-over screen with that same balance once it is 4. *)
Theorem page_shows_current_state (w : world) :
  reachable w →
  ∃ i b,
    index_of w = Some i ∧ balance_of w = Some b ∧
    ((i = 4%Z ∧ page w = page_head (VInt b) ++ game_over_page b) ∨
     ((0 ≤ i < 4)%Z ∧
      ∃ sc fig entry exit_choice,
        scenarios !! Z.to_nat i = Some sc ∧
        page w = page_head (VInt b) ++ scenario_page sc fig i entry exit_choice)).
Proof.
  intros Hreach. destruct (reachable_inv w Hreach) as (i & b & Hgs & Hi & _ & Hpg).
  exists i, b. split; [by eapply game_state_index |].
  split; [by eapply game_state_balance |].
  unfold displays in Hpg. destruct (Z.ltb_spec i 4).
  - right. split; [lia | done].
  - left. split; [lia | done].
Qed.

Lemma page_shows_current_state_witness :
  ∃ i b,
    index_of (load (demo_env 0 "long" "smart")) = Some i ∧
    balance_of (load (demo_env 0 "long" "smart")) = Some b ∧
    ((i = 4%Z ∧ page (load (demo_env 0 "long" "smart"))
                 = page_head (VInt b) ++ game_over_page b) ∨
     ((0 ≤ i < 4)%Z ∧
      ∃ sc fig entry exit_choice,
        scenarios !! Z.to_nat i = Some sc ∧
        page (load (demo_env 0 "long" "smart"))
          = page_head (VInt b) ++ scenario_page sc fig i entry exit_choice)).
Proof.
  apply (page_shows_current_state (load (demo_env 0 "long" "smart"))).
  apply reachable_load.
Defined.

(** X11. The message of a submitted decision does not stay on screen: the
    run that scores the decision shows it as its only banner and then asks
    for the rerun, and the page the interaction leaves behind is that of the
    rerun, which carries no banner while scenarios remain and only the
    game-over verdict after the last one. *)
Theorem decision_banner_not_on_final_page (w : world) (e : env) (i : Z) :
  reachable w → index_of w = Some i → (i < 4)%Z →
  clicked e = Some "Submit Decision" →
  ∃ w1 w2 msg b2,
    script e (fresh_page w) = Rerun w1 ∧
    banners (page w1) = [Success msg] ∧
    interact e w = Ok tt w2 ∧
    balance_of w2 = Some b2 ∧
    banners (page w2) = (if (i + 1 <? 4)%Z then [] else [verdict b2]).
Proof.
  intros Hreach Hidx Hlt Hclick.
  destruct (reachable_inv w Hreach) as (i' & b & Hgs & Hi & _ & _).
  assert (i' = i) as -> by (apply game_state_index in Hgs; congruence).
  destruct (scenario_at i) as [sc Hsc]; [lia |].
  destruct (show_game_submit e (fresh_page w) i b sc) as (w1 & E1 & Hmsg & _);
    [by apply game_state_fresh_page | lia | done | done |].
  destruct (interact_spec e w i b Hgs Hi) as (w2 & E2 & Hgs2 & Hpg2).
  rewrite (engine_step_index e i b Hi) in Hgs2, Hpg2.
  assert (Hsub : ((i <? 4)%Z && submitting e)%bool = true).
  { unfold submitting. rewrite bool_decide_eq_true_2 by done.
    by rewrite (proj2 (Z.ltb_lt i 4) Hlt). }
  rewrite Hsub in Hgs2, Hpg2.
  apply displays_observed in Hpg2 as (_ & _ & Hban).
  eexists w1, w2, _, _. split; [| split; [exact Hmsg | split; [exact E2 | split]]].
  - unfold script. erewrite bind_Ok by (by eapply init_session_present). exact E1.
  - by eapply game_state_balance.
  - exact Hban.
Qed.

Lemma decision_banner_not_on_final_page_witness :
  ∃ w1 w2 msg b2,
    script (demo_env 0 "short" "smart") (fresh_page (load (demo_env 0 "long" "smart")))
      = Rerun w1 ∧
    banners (page w1) = [Success msg] ∧
    interact (demo_env 0 "short" "smart") (load (demo_env 0 "long" "smart")) = Ok tt w2 ∧
    balance_of w2 = Some b2 ∧
    banners (page w2) = (if (0 + 1 <? 4)%Z then [] else [verdict b2]).
Proof.
  apply (decision_banner_not_on_final_page (load (demo_env 0 "long" "smart"))
           (demo_env 0 "short" "smart") 0%Z).
  - apply reachable_load.
  - vm_compute. reflexivity.
  - lia.
  - reflexivity.
Defined.

(** ** Widgets and the session state *)

(** X12. The widget keys [entry_<index>] and [exit_<index>] are one pair per
    scenario: two indices give the same key only if they are equal, an entry
    key is never an exit key, and so what the browser holds for the radios
    of one scenario has no effect on what the radios of another return. *)
Theorem widget_keys_per_scenario (i j : Z) :
  ("entry_" +:+ pretty i = "entry_" +:+ pretty j → i = j) ∧
  ("exit_" +:+ pretty i = "exit_" +:+ pretty j → i = j) ∧
  "entry_" +:+ pretty i ≠ "exit_" +:+ pretty j ∧
  (i ≠ j →
   ∀ e entry exit_choice,
     let e' := {| picks := <["exit_" +:+ pretty i := exit_choice]>
                             (<["entry_" +:+ pretty i := entry]> (picks e));
                  clicked := clicked e;
                  rng := rng e |} in
     entry_of e' j = entry_of e j ∧ exit_of e' j = exit_of e j).
Proof.
  assert (Hentry : ∀ a b : Z, "entry_" +:+ pretty a = "entry_" +:+ pretty b → a = b).
  { intros a b H. apply (inj (String.append "entry_")) in H. by apply (inj pretty). }
  assert (Hexit : ∀ a b : Z, "exit_" +:+ pretty a = "exit_" +:+ pretty b → a = b).
  { intros a b H. apply (inj (String.append "exit_")) in H. by apply (inj pretty). }
  split; [apply Hentry |]. split; [apply Hexit |]. split; [done |].
  intros Hne e entry exit_choice e'. unfold entry_of, exit_of, e'. cbn [picks]. split.
  - rewrite lookup_insert_ne by done.
    rewrite lookup_insert_ne by (intros H; by apply Hne, Hentry). done.
  - rewrite lookup_insert_ne by (intros H; by apply Hne, Hexit).
    rewrite lookup_insert_ne by done. done.
Qed.

Lemma widget_keys_per_scenario_witness :
  let e := demo_env 1 "short" "smart" in
  let e' := {| picks := <["exit_" +:+ pretty 0%Z := "greedy"]>
                          (<["entry_" +:+ pretty 0%Z := "skip"]> (picks e));
               clicked := clicked e;
               rng := rng e |} in
  entry_of e' 1 = entry_of e 1 ∧ exit_of e' 1 = exit_of e 1.
Proof.
  apply (proj2 (proj2 (proj2 (widget_keys_per_scenario 0 1)))). lia.
Defined.

Lemma lookup_insert_keeps (m : gmap string value) j v k :
  is_Some (m !! k) → is_Some (<[j := v]> m !! k).
Proof.
  intros Hk. destruct (decide (j = k)) as [->|Hne].
  - rewrite lookup_insert_eq. eauto.
  - by rewrite lookup_insert_ne.
Qed.

(** X13. What a run of [show_game] writes, in a session with index [i]
    between 0 and 4: nothing but the balance, the scenario index and the two
    widget keys of scenario [i]; it never removes a key (the widget values
    of earlier scenarios stay in the session state), and on the game-over
    screen it writes nothing at all. *)
Theorem show_game_footprint (e : env) (w : world) (i b : Z) :
  game_state w i b → (0 ≤ i ≤ 4)%Z →
  let w' := final_world (show_game e w) in
  (∀ k, k ≠ "balance" → k ≠ "scenario_index" →
        k ≠ "entry_" +:+ pretty i → k ≠ "exit_" +:+ pretty i →
        session_state w' !! k = session_state w !! k) ∧
  (∀ k, is_Some (session_state w !! k) → is_Some (session_state w' !! k)) ∧
  (i = 4%Z → session_state w' = session_state w).
Proof.
  intros [Hi Hb] Hrange w'. destruct (decide (i = 4%Z)) as [->|Hne].
  - unfold w'. rewrite (show_game_over e w b 4) by done. cbn [final_world session_state].
    done.
  - destruct (scenario_at i) as [sc Hsc]; [lia |].
    unfold w'. destruct (show_game_playing e w b i sc Hb Hi) as [fig ->]; [lia | done |].
    split; [| split; [| done]].
    + intros k H1 H2 H3 H4.
      destruct (submitting e); cbn [final_world submitted rendered session_state];
        by rewrite !lookup_insert_ne.
    + intros k Hk.
      destruct (submitting e); cbn [final_world submitted rendered session_state];
        by repeat apply lookup_insert_keeps.
Qed.

Lemma show_game_footprint_witness :
  let w' := final_world (show_game (demo_env 2 "long" "smart") (demo_world 2 10200)) in
  (∀ k, k ≠ "balance" → k ≠ "scenario_index" →
        k ≠ "entry_" +:+ pretty 2%Z → k ≠ "exit_" +:+ pretty 2%Z →
        session_state w' !! k = session_state (demo_world 2 10200) !! k) ∧
  (∀ k, is_Some (session_state (demo_world 2 10200) !! k) →
        is_Some (session_state w' !! k)) ∧
  (2%Z = 4%Z → session_state w' = session_state (demo_world 2 10200)).
Proof.
  apply (show_game_footprint (demo_env 2 "long" "smart") (demo_world 2 10200) 2 10200).
  - split; vm_compute; reflexivity.
  - lia.
Defined.

(** ** Random samples *)

(** X14. Every run that shows a scenario takes ten new samples from the
    generator, so the chart of a scenario is drawn from different samples
    each time the page runs again; the game-over screen takes none.  An
    interaction therefore advances the generator by ten, by twenty when a
    submit is followed by the rerun onto another scenario, and not at all
    once the game is over. *)
Theorem interaction_draws_fresh_samples (e : env) (w : world) (i b : Z) :
  game_state w i b → (0 ≤ i ≤ 4)%Z →
  rng_pos (final_world (show_game e w)) = rng_pos w + (if (i <? 4)%Z then 10 else 0) ∧
  rng_pos (final_world (interact e w)) =
    rng_pos w + (if (i <? 4)%Z then 10 else 0)
              + (if ((i <? 3)%Z && submitting e)%bool then 10 else 0).
Proof.
  intros Hgs Hrange. pose proof Hgs as [Hi Hb]. split.
  - destruct (Z.ltb_spec i 4) as [Hlt|Hge].
    + destruct (scenario_at i) as [sc Hsc]; [lia |].
      destruct (show_game_playing e w b i sc Hb Hi) as [fig ->]; [lia | done |].
      by destruct (submitting e).
    + rewrite (show_game_over e w b i) by done. cbn [final_world rng_pos]. lia.
  - unfold interact, script.
    erewrite bind_Ok by (eapply init_session_present; by apply game_state_fresh_page).
    cbv beta. destruct (Z.ltb_spec i 4) as [Hlt|Hge].
    + destruct (scenario_at i) as [sc Hsc]; [lia |].
      destruct (show_game_playing e (fresh_page w) b i sc Hb Hi) as [fig ->]; [lia | done |].
      destruct (submitting e).
      * pose proof (game_state_submitted e (fresh_page w) b i sc fig) as Hgs1.
        set (w1 := submitted e (fresh_page w) b i sc fig) in *.
        erewrite bind_Ok by (eapply init_session_present; apply game_state_fresh_page, Hgs1).
        cbv beta. destruct Hgs1 as [Hi1 Hb1]. rewrite andb_true_r.
        destruct (Z.ltb_spec i 3) as [Hlt3|Hge3].
        -- destruct (scenario_at (i + 1)) as [sc1 Hsc1]; [lia |].
           destruct (show_game_playing (without_click e) (fresh_page w1) _ _ sc1 Hb1 Hi1)
             as [fig1 ->]; [lia | done |].
           change (submitting (without_click e)) with false. cbn. lia.
        -- rewrite (show_game_over (without_click e) (fresh_page w1) _ _ Hb1 Hi1) by lia.
           cbn. lia.
      * rewrite andb_false_r. cbn. lia.
    + rewrite (show_game_over e (fresh_page w) b i) by done.
      replace (i <? 3)%Z with false by (symmetry; apply Z.ltb_ge; lia). cbn. lia.
Qed.

Lemma interaction_draws_fresh_samples_witness :
  rng_pos (final_world (show_game (demo_env 1 "long" "smart") (demo_world 1 9700)))
    = rng_pos (demo_world 1 9700) + (if (1 <? 4)%Z then 10 else 0) ∧
  rng_pos (final_world (interact (demo_env 1 "long" "smart") (demo_world 1 9700)))
    = rng_pos (demo_world 1 9700) + (if (1 <? 4)%Z then 10 else 0)
      + (if ((1 <? 3)%Z && submitting (demo_env 1 "long" "smart"))%bool then 10 else 0).
Proof.
  apply (interaction_draws_fresh_samples (demo_env 1 "long" "smart") (demo_world 1 9700)
           1 9700).
  - split; vm_compute; reflexivity.
  - lia.
Defined.

(** ** An index below zero *)

(** [show_game_playing] for any index the guard of line 108 lets through. *)
Lemma show_game_playing_at e w b i sc :
  session_state w !! "balance" = Some (VInt b) →
  session_state w !! "scenario_index" = Some (VInt i) →
  (i < 4)%Z →
  py_index scenarios i = Some sc →
  ∃ fig,
    show_game e w =
      if submitting e then Rerun (submitted e w b i sc fig)
      else Ok tt (rendered e w b i sc fig).
Proof.
  intros Hb Hi Hrange Hsc.
  destruct (plot_chart_ok (Scenario.chart sc) e
              {| session_state := session_state w;
                 page := (page w ++ page_head (VInt b))
                           ++ [Header (Scenario.name sc)]
                           ++ [Write (Scenario.description sc)];
                 rng_pos := rng_pos w |}) as [fig Hfig].
  exists fig. unfold show_game.
  rewrite (show_game_head e w (VInt b)) by done.
  rewrite (bind_get_attr _ (VInt i)) by done.
  cbn [py_lt]. rewrite bind_ret.
  replace (i <? Z.of_nat (length scenarios))%Z with true
    by (symmetry; apply Z.ltb_lt; simpl; lia).
  rewrite (bind_get_attr _ (VInt i)) by done.
  cbn [list_getitem]. rewrite Hsc. rewrite bind_ret.
  unfold st_header, st_write. rewrite !bind_emit.
  cbn [session_state page rng_pos]. rewrite <- (app_assoc _ [Header _] [Write _]).
  erewrite bind_Ok by exact Hfig.
  rewrite (bind_get_attr _ (VInt i)) by done.
  erewrite bind_Ok by apply st_radio_ok.
  rewrite (bind_get_attr _ (VInt i))
    by (cbn [session_state]; rewrite lookup_insert_ne by apply entry_key_index; done).
  erewrite bind_Ok by apply st_radio_ok.
  erewrite bind_Ok by apply st_button_ok.
  cbn [session_state page rng_pos format_value].
  fold (entry_of e i) (exit_of e i). fold (submitting e).
  unfold submitted, rendered, scenario_page. cbn [session_state page rng_pos].
  rewrite <- !app_assoc. cbn [app].
  destruct (submitting e).
  - erewrite submit_decision_spec; [| cbn [session_state] ..].
    + cbn [session_state page rng_pos]. by rewrite <- !app_assoc.
    + rewrite !lookup_insert_ne by (apply exit_key_balance || apply entry_key_balance). done.
    + rewrite !lookup_insert_ne by (apply exit_key_index || apply entry_key_index). done.
  - reflexivity.
Qed.

(** X15. The guard of line 108 bounds the scenario index from above only.
    With an index below zero Python's indexing counts from the end: for -4
    to -1 the run shows scenario [4 + index] (and a submit scores it), and
    below -4 the run raises IndexError after the page head, with the session
    state untouched. *)
Theorem negative_index_edge (e : env) (w : world) (i b : Z) :
  game_state w i b → (i < 0)%Z →
  if decide (-4 ≤ i)%Z then
    ∃ sc fig,
      scenarios !! Z.to_nat (4 + i) = Some sc ∧
      show_game e w =
        (if submitting e then Rerun (submitted e w b i sc fig)
         else Ok tt (rendered e w b i sc fig))
  else
    show_game e w =
      Raised IndexError {| session_state := session_state w;
                           page := page w ++ page_head (VInt b);
                           rng_pos := rng_pos w |}.
Proof.
  intros [Hi Hb] Hneg. case_decide as Hlow.
  - destruct (scenario_at (4 + i)) as [sc Hsc]; [lia |].
    assert (Hpy : py_index scenarios i = Some sc).
    { unfold py_index. destruct (Z.leb_spec 0 i); [lia |].
      destruct (Z.leb_spec (- Z.of_nat (length scenarios)) i) as [_|Hlt];
        [exact Hsc | simpl in Hlt; lia]. }
    destruct (show_game_playing_at e w b i sc Hb Hi) as [fig E]; [lia | done |].
    by exists sc, fig.
  - unfold show_game. rewrite (show_game_head e w (VInt b)) by done.
    rewrite (bind_get_attr _ (VInt i)) by done.
    cbn [py_lt]. rewrite bind_ret.
    replace (i <? Z.of_nat (length scenarios))%Z with true
      by (symmetry; apply Z.ltb_lt; simpl; lia).
    rewrite (bind_get_attr _ (VInt i)) by done.
    apply bind_Raised. cbn [list_getitem]. unfold py_index.
    destruct (Z.leb_spec 0 i); [lia |].
    destruct (Z.leb_spec (- Z.of_nat (length scenarios)) i) as [Hle|_];
      [simpl in Hle; lia | done].
Qed.

Lemma negative_index_edge_witness :
  if decide (-4 ≤ -1)%Z then
    ∃ sc fig,
      scenarios !! Z.to_nat (4 + -1) = Some sc ∧
      show_game (demo_env (-1) "long" "smart") (demo_world (-1) 10000) =
        (if submitting (demo_env (-1) "long" "smart")
         then Rerun (submitted (demo_env (-1) "long" "smart") (demo_world (-1) 10000)
                       10000 (-1) sc fig)
         else Ok tt (rendered (demo_env (-1) "long" "smart") (demo_world (-1) 10000)
                       10000 (-1) sc fig))
  else
    show_game (demo_env (-1) "long" "smart") (demo_world (-1) 10000) =
      Raised IndexError {| session_state := session_state (demo_world (-1) 10000);
                           page := page (demo_world (-1) 10000) ++ page_head (VInt 10000);
                           rng_pos := rng_pos (demo_world (-1) 10000) |}.
Proof.
  apply (negative_index_edge (demo_env (-1) "long" "smart") (demo_world (-1) 10000)
           (-1) 10000).
  - split; vm_compute; reflexivity.
  - lia.
Defined.

(** ** Winning *)

Lemma spec_submit_gain sc entry exit_choice :
  (0 < (spec_submit sc entry exit_choice).2)%Z →
  entry = Scenario.entry sc ∧ exit_choice = "smart".
Proof.
  unfold spec_submit. repeat case_decide; cbn [snd]; try lia.
  intros _. split; [| done]. by destruct (decide (entry = Scenario.entry sc)).
Qed.

Lemma engine_step_cases e i b :
  (0 ≤ i ≤ 4)%Z →
  engine_step e (i, b) = (i, b) ∨
  ∃ sc, submitting e = true ∧ (i < 4)%Z ∧ scenarios !! Z.to_nat i = Some sc ∧
        engine_step e (i, b)
          = ((i + 1)%Z, (b + (spec_submit sc (entry_of e i) (exit_of e i)).2)%Z).
Proof.
  intros Hi. unfold engine_step.
  destruct (Z.ltb_spec i 4) as [Hlt|Hge]; [| by left].
  destruct (submitting e); [| by left]. cbn [andb].
  destruct (scenario_at i) as [sc Hsc]; [lia |]. rewrite Hsc.
  right. by exists sc.
Qed.

(** A run of the state machine that gains money contains a submit that took
    the entry of the scenario then current, with the smart exit. *)
Lemma engine_run_gain es i b :
  (0 ≤ i ≤ 4)%Z → (b < (engine_run es (i, b)).2)%Z →
  ∃ k e sc,
    es !! k = Some e ∧ submitting e = true ∧
    let j := (engine_run (take k es) (i, b)).1 in
    (0 ≤ j < 4)%Z ∧ scenarios !! Z.to_nat j = Some sc ∧
    entry_of e j = Scenario.entry sc ∧ exit_of e j = "smart".
Proof.
  revert i b. induction es as [|e es IH]; intros i b Hi; [cbn; lia |].
  rewrite engine_run_cons. intros Hgain.
  destruct (engine_step_cases e i b Hi) as [E | (sc & Hsub & Hlt & Hsc & E)].
  - rewrite E in Hgain.
    destruct (IH i b Hi Hgain) as (k & e' & sc' & Hk & Hsub & H).
    exists (S k), e', sc'. split; [done |]. split; [done |].
    cbn [take]. by rewrite engine_run_cons, E.
  - destruct (decide (0 < (spec_submit sc (entry_of e i) (exit_of e i)).2)%Z)
      as [Hpos|Hnon].
    + apply spec_submit_gain in Hpos as [Hentry Hexit].
      exists 0, e, sc. split; [done |]. split; [done |].
      cbn [take engine_run foldl fst]. split; [lia | done].
    + rewrite E in Hgain.
      destruct (IH (i + 1)%Z (b + (spec_submit sc (entry_of e i) (exit_of e i)).2)%Z)
        as (k & e' & sc' & Hk & Hsub' & H); [lia | lia |].
      exists (S k), e', sc'. split; [done |]. split; [done |].
      cbn [take]. by rewrite engine_run_cons, E.
Qed.

(** X16. A session, whatever its events are (submit clicks and runs without
    a click in any order), can only have a balance above 10000 if one of its
    events was a submit that took the entry of the scenario on screen at
    that moment with the smart exit: every other outcome of the scoring
    rule costs money or nothing. *)
Theorem profit_needs_smart_exit (e0 : env) (es : list env) (b : Z) :
  balance_of (run_events es (load e0)) = Some b → (10000 < b)%Z →
  ∃ k e i sc,
    es !! k = Some e ∧ clicked e = Some "Submit Decision" ∧
    index_of (run_events (take k es) (load e0)) = Some i ∧
    (0 ≤ i < 4)%Z ∧ scenarios !! Z.to_nat i = Some sc ∧
    entry_of e i = Scenario.entry sc ∧ exit_of e i = "smart".
Proof.
  intros Hbal Hprofit.
  destruct (session_spec e0 es) as [Hgs _].
  apply game_state_balance in Hgs. rewrite Hbal in Hgs. injection Hgs as Hb.
  destruct (engine_run_gain es 0 10000) as (k & e & sc & Hk & Hsub & Hj & Hsc & Hen & Hex);
    [lia | lia |].
  destruct (session_spec e0 (take k es)) as [Hgsk _].
  apply game_state_index in Hgsk.
  exists k, e, (engine_run (take k es) (0%Z, 10000%Z)).1, sc.
  split; [done |]. split; [| done].
  unfold submitting in Hsub. by apply bool_decide_eq_true_1 in Hsub.
Qed.

Lemma profit_needs_smart_exit_witness :
  ∃ k e i sc,
    [without_click (demo_env 0 "short" "smart"); demo_env 0 "short" "smart"] !! k
      = Some e ∧
    clicked e = Some "Submit Decision" ∧
    index_of (run_events
                (take k [without_click (demo_env 0 "short" "smart");
                         demo_env 0 "short" "smart"])
                (load (demo_env 0 "long" "smart"))) = Some i ∧
    (0 ≤ i < 4)%Z ∧ scenarios !! Z.to_nat i = Some sc ∧
    entry_of e i = Scenario.entry sc ∧ exit_of e i = "smart".
Proof.
  apply (profit_needs_smart_exit (demo_env 0 "long" "smart")
           [without_click (demo_env 0 "short" "smart"); demo_env 0 "short" "smart"]
           10500).
  - vm_compute. reflexivity.
  - lia.
Defined.

(** ** Interactions that score nothing *)

Lemma interact_game_over e w b :
  game_state w 4 b →
  interact e w =
    Ok tt {| session_state := session_state w;
             page := page_head (VInt b) ++ game_over_page b;
             rng_pos := rng_pos w |}.
Proof.
  intros Hgs. unfold interact, script.
  erewrite bind_Ok by (eapply init_session_present; by apply game_state_fresh_page).
  cbv beta. destruct Hgs as [Hi Hb].
  by rewrite (show_game_over e (fresh_page w) b 4) by done.
Qed.

Lemma interact_render e w i b sc :
  game_state w i b → (0 ≤ i < 4)%Z → scenarios !! Z.to_nat i = Some sc →
  submitting e = false →
  ∃ fig, interact e w = Ok tt (rendered e (fresh_page w) b i sc fig).
Proof.
  intros Hgs Hrange Hsc Hsub. unfold interact, script.
  erewrite bind_Ok by (eapply init_session_present; by apply game_state_fresh_page).
  cbv beta. destruct Hgs as [Hi Hb].
  destruct (show_game_playing e (fresh_page w) b i sc Hb Hi Hrange Hsc) as [fig ->].
  rewrite Hsub. by exists fig.
Qed.

(** X17. Game over is a fixed point: in a reachable session whose index is
    4, any interaction, a click included, leaves the whole world as it is,
    session state, page on screen and generator. *)
Theorem game_over_is_absorbing (w : world) (e : env) :
  reachable w → index_of w = Some 4%Z → interact e w = Ok tt w.
Proof.
  intros Hreach Hidx.
  destruct (reachable_inv w Hreach) as (i & b & Hgs & _ & _ & Hpg).
  assert (i = 4%Z) as -> by (apply game_state_index in Hgs; congruence).
  rewrite (interact_game_over e w b Hgs). unfold displays in Hpg.
  change (4 <? 4)%Z with false in Hpg. cbv iota in Hpg.
  destruct w as [ss pg pos]. cbn [page session_state rng_pos] in *. by subst pg.
Qed.

Lemma game_over_is_absorbing_witness :
  interact (demo_env 3 "long" "smart")
    (run_events [demo_env 0 "short" "smart"; demo_env 1 "long" "smart";
                 demo_env 2 "long" "smart"; demo_env 3 "long" "smart"]
       (load (demo_env 0 "long" "smart")))
  = Ok tt
      (run_events [demo_env 0 "short" "smart"; demo_env 1 "long" "smart";
                   demo_env 2 "long" "smart"; demo_env 3 "long" "smart"]
         (load (demo_env 0 "long" "smart"))).
Proof.
  apply (game_over_is_absorbing
           (run_events [demo_env 0 "short" "smart"; demo_env 1 "long" "smart";
                        demo_env 2 "long" "smart"; demo_env 3 "long" "smart"]
              (load (demo_env 0 "long" "smart")))
           (demo_env 3 "long" "smart")).
  - unfold run_events. cbn [foldl]. do 4 apply reachable_event. apply reachable_load.
  - vm_compute. reflexivity.
Defined.

(** X18. Rendering again with the same browser input and no submit is
    idempotent on the session state: the radios store the same selections
    under the same keys, so a second such interaction leaves the session
    state exactly as the first one did (only the chart is drawn anew). *)
Theorem rerender_is_idempotent (e : env) (w : world) (i b : Z) :
  game_state w i b → (0 ≤ i ≤ 4)%Z → submitting e = false →
  let w1 := final_world (interact e w) in
  session_state (final_world (interact e w1)) = session_state w1.
Proof.
  intros Hgs Hrange Hsub w1. destruct (decide (i = 4%Z)) as [->|Hne].
  - unfold w1. rewrite (interact_game_over e w b Hgs). cbn [final_world].
    by rewrite (interact_game_over e _ b) by done.
  - destruct (scenario_at i) as [sc Hsc]; [lia |].
    destruct (interact_render e w i b sc Hgs) as [fig E]; [lia | done | done |].
    unfold w1. rewrite E. cbn [final_world].
    pose proof (game_state_rendered e (fresh_page w) b i sc fig i b
                  (game_state_fresh_page _ _ _ Hgs)) as Hgs1.
    destruct (interact_render e _ i b sc Hgs1) as [fig1 ->]; [lia | done | done |].
    cbn [final_world rendered fresh_page session_state].
    apply map_eq. intros k.
    destruct (decide ("exit_" +:+ pretty i = k)) as [<-|Hk1].
    { by rewrite !lookup_insert_eq. }
    rewrite !(lookup_insert_ne _ ("exit_" +:+ pretty i)) by done.
    destruct (decide ("entry_" +:+ pretty i = k)) as [<-|Hk2].
    { by rewrite !lookup_insert_eq. }
    rewrite !(lookup_insert_ne _ ("entry_" +:+ pretty i)) by done.
    by rewrite !lookup_insert_ne by done.
Qed.

Lemma rerender_is_idempotent_witness :
  let w1 := final_world (interact (without_click (demo_env 1 "short" "greedy"))
                           (demo_world 1 9700)) in
  session_state (final_world (interact (without_click (demo_env 1 "short" "greedy")) w1))
    = session_state w1.
Proof.
  apply (rerender_is_idempotent (without_click (demo_env 1 "short" "greedy"))
           (demo_world 1 9700) 1 9700).
  - split; vm_compute; reflexivity.
  - lia.
  - reflexivity.
Defined.
